(** * Period tracker: the cycle-phase inference of [calculate_predictions]

    A shallow embedding of [src/period_tracker_app.py]: the session state the
    script keeps in [st.session_state], the helpers [save_period] and
    [delete_period], and the function [calculate_predictions], which derives
    the two rolling averages from the recorded periods and classifies a target
    date into a stage of the cycle.

    Dates are proleptic Gregorian ordinals ([date.toordinal()]), so that the
    difference of two dates is the [.days] of their [timedelta].  The
    operations of Python's [datetime] that can raise are embedded with their
    exceptions. *)

From Stdlib Require Import ZArith List Bool Lia Permutation Sorted.
From Stdlib Require String Ascii DecimalString.
Import ListNotations.
Open Scope Z_scope.

(** ** Python values the program relies on *)

Inductive exn : Type :=
| ZeroDivisionError
| OverflowError.

Inductive outcome (A : Type) : Type :=
| Ok (a : A)
| Raise (e : exn).
Arguments Ok {A} a.
Arguments Raise {A} e.

Definition bind {A B : Type} (c : outcome A) (k : A -> outcome B) : outcome B :=
  match c with
  | Ok a => k a
  | Raise e => Raise e
  end.

Notation "x <- c ;; k" := (bind c (fun x => k))
  (at level 61, c at next level, right associativity).

Module PyDate.

(** [date.max.toordinal()] and the largest [days] a [timedelta] holds. *)
Definition MAXORDINAL : Z := 3652059.
Definition MAX_DELTA_DAYS : Z := 999999999.

Definition is_leap (year : Z) : bool :=
  (year mod 4 =? 0) && (negb (year mod 100 =? 0) || (year mod 400 =? 0)).

Definition days_before_year (year : Z) : Z :=
  let y := year - 1 in
  y * 365 + y / 4 - y / 100 + y / 400.

Definition DAYS_BEFORE_MONTH : list Z :=
  [-1; 0; 31; 59; 90; 120; 151; 181; 212; 243; 273; 304; 334].

Definition days_before_month (year month : Z) : Z :=
  nth (Z.to_nat month) DAYS_BEFORE_MONTH 0
  + (if (2 <? month) && is_leap year then 1 else 0).

(** [date(year, month, day).toordinal()]. *)
Definition ymd2ord (year month day : Z) : Z :=
  days_before_year year + days_before_month year month + day.

(** [timedelta(days=n).days]: the constructor refuses a magnitude above
    [MAX_DELTA_DAYS]. *)
Definition timedelta (days : Z) : outcome Z :=
  if Z.abs days <=? MAX_DELTA_DAYS then Ok days else Raise OverflowError.

(** [d + td] for a date [d]: the sum must be a date again. *)
Definition date_add (d td : Z) : outcome Z :=
  let o := d + td in
  if (0 <? o) && (o <=? MAXORDINAL) then Ok o else Raise OverflowError.

(** [d - td] for a date [d] is [d + timedelta(-td.days)]. *)
Definition date_sub (d td : Z) : outcome Z := date_add d (- td).

(** [(a - b).days] for two dates. *)
Definition days_between (a b : Z) : Z := a - b.

End PyDate.

(** [a % b] and [a // b] on integers are floor-based, as [Z.modulo] and
    [Z.div] are; only the zero divisor differs, where Python raises. *)
Definition py_mod (a b : Z) : outcome Z :=
  if b =? 0 then Raise ZeroDivisionError else Ok (a mod b).

Definition py_floordiv (a b : Z) : outcome Z :=
  if b =? 0 then Raise ZeroDivisionError else Ok (a / b).

(** [round(p / q)] for integers [p] and [q > 0].  Python 3 divides into a
    binary64 float and rounds it to the nearest integer, a tie going to the
    even neighbour.  The definition rounds the exact quotient; the two agree
    as long as [|p| < 2^52], far beyond what sums of day counts reach, because
    a quotient that is not a half-integer is then further from every
    half-integer than the float nearest to it. *)
Definition py_round_div (p q : Z) : Z :=
  let f := p / q in
  let r := p mod q in
  if 2 * r <? q then f
  else if q <? 2 * r then f + 1
  else if Z.even f then f else f + 1.

Definition py_sum (l : list Z) : Z := fold_right Z.add 0 l.

(** ** Data *)

(** One entry of [st.session_state.periods]: [{'start': date, 'end': date}]. *)
Record period : Type := mkPeriod { start : Z; end_ : Z }.

(** The keys of [st.session_state] the script initialises. *)
Record session_state : Type := mkSession {
  ss_periods : list period;
  ss_avg_cycle : Z;
  ss_avg_period_length : Z;
  ss_query_date : Z
}.

Definition initial_session (today : Z) : session_state :=
  mkSession [] 28 5 today.

Definition set_ss_periods (st : session_state) (v : list period) :=
  mkSession v (ss_avg_cycle st) (ss_avg_period_length st) (ss_query_date st).
Definition set_ss_avg_cycle (st : session_state) (v : Z) :=
  mkSession (ss_periods st) v (ss_avg_period_length st) (ss_query_date st).
Definition set_ss_avg_period_length (st : session_state) (v : Z) :=
  mkSession (ss_periods st) (ss_avg_cycle st) v (ss_query_date st).

(** The label [result['current_stage']].  Every label the function builds is
    a fixed tag followed, for most of them, by a day number in parentheses;
    the constructor is the tag and its argument the formatted number. *)
Inductive stage : Type :=
| StageNoRecord                   (* 無紀錄 *)
| StageHistorical                 (* 歷史查詢 *)
| StageMensesRecorded (day : Z)   (* 月經期 (第 day 天) *)
| StageMensesProjected (day : Z)  (* 月經期 (預計週期日 day) *)
| StageDelayed (day : Z)          (* 週期可能延遲 (第 day 天) *)
| StageLuteal (day : Z)           (* 黃體期 (預計週期日 day) *)
| StageFertile (day : Z)          (* 排卵期 (預計週期日 day) *)
| StageFollicular (day : Z).      (* 濾泡期 (預計週期日 day) *)

(** The text [result['stage_detail']], with the values it interpolates. *)
Inductive detail : Type :=
| DetailNoRecord
| DetailHistorical (target last_start : Z)
| DetailRecorded (last_start last_end : Z)
| DetailProjectedMenses
| DetailDelayed
| DetailLuteal (day days_to_next : Z)
| DetailFertile (day : Z)
| DetailFollicular (day days_to_fertile : Z).

(** What the callers cut out of the label with [split('(')[0].strip()]. *)
Inductive phase : Type :=
| NO_DATA | HISTORICAL | MENSES | DELAYED | LUTEAL | FERTILE | FOLLICULAR.

Definition clean_stage (s : stage) : phase :=
  match s with
  | StageNoRecord => NO_DATA
  | StageHistorical => HISTORICAL
  | StageMensesRecorded _ | StageMensesProjected _ => MENSES
  | StageDelayed _ => DELAYED
  | StageLuteal _ => LUTEAL
  | StageFertile _ => FERTILE
  | StageFollicular _ => FOLLICULAR
  end.

(** The day number printed in the label, when it has one. *)
Definition stage_day (s : stage) : option Z :=
  match s with
  | StageNoRecord | StageHistorical => None
  | StageMensesRecorded d | StageMensesProjected d | StageDelayed d
  | StageLuteal d | StageFertile d | StageFollicular d => Some d
  end.

(** The dictionary [calculate_predictions] returns. *)
Record Result : Type := mkResult {
  last_period_date : option Z;
  next_period_start : option Z;
  avg_cycle : Z;
  avg_period_length : Z;
  current_stage : stage;
  stage_detail : detail;
  day_since_start : Z;
  last_period_end_date : option Z;
  target_date : Z;
  days_to_next_period : option Z
}.

Definition set_last_period_date (r : Result) (v : option Z) : Result :=
  mkResult v (next_period_start r) (avg_cycle r) (avg_period_length r)
    (current_stage r) (stage_detail r) (day_since_start r)
    (last_period_end_date r) (target_date r) (days_to_next_period r).
Definition set_next_period_start (r : Result) (v : option Z) : Result :=
  mkResult (last_period_date r) v (avg_cycle r) (avg_period_length r)
    (current_stage r) (stage_detail r) (day_since_start r)
    (last_period_end_date r) (target_date r) (days_to_next_period r).
Definition set_avg_cycle (r : Result) (v : Z) : Result :=
  mkResult (last_period_date r) (next_period_start r) v (avg_period_length r)
    (current_stage r) (stage_detail r) (day_since_start r)
    (last_period_end_date r) (target_date r) (days_to_next_period r).
Definition set_avg_period_length (r : Result) (v : Z) : Result :=
  mkResult (last_period_date r) (next_period_start r) (avg_cycle r) v
    (current_stage r) (stage_detail r) (day_since_start r)
    (last_period_end_date r) (target_date r) (days_to_next_period r).
Definition set_stage (r : Result) (s : stage) (d : detail) : Result :=
  mkResult (last_period_date r) (next_period_start r) (avg_cycle r)
    (avg_period_length r) s d (day_since_start r)
    (last_period_end_date r) (target_date r) (days_to_next_period r).
Definition set_day_since_start (r : Result) (v : Z) : Result :=
  mkResult (last_period_date r) (next_period_start r) (avg_cycle r)
    (avg_period_length r) (current_stage r) (stage_detail r) v
    (last_period_end_date r) (target_date r) (days_to_next_period r).
Definition set_last_period_end_date (r : Result) (v : option Z) : Result :=
  mkResult (last_period_date r) (next_period_start r) (avg_cycle r)
    (avg_period_length r) (current_stage r) (stage_detail r)
    (day_since_start r) v (target_date r) (days_to_next_period r).
Definition set_days_to_next_period (r : Result) (v : option Z) : Result :=
  mkResult (last_period_date r) (next_period_start r) (avg_cycle r)
    (avg_period_length r) (current_stage r) (stage_detail r)
    (day_since_start r) (last_period_end_date r) (target_date r) v.

(** ** [save_period] and [delete_period] *)

Definition save_period (new_start_date new_end_date : Z) (st : session_state)
  : session_state :=
  if new_start_date <=? new_end_date then
    if existsb (fun r => start r =? new_start_date) (ss_periods st) then st
    else set_ss_periods st (ss_periods st ++ [mkPeriod new_start_date new_end_date])
  else st.

Definition delete_period (target : Z) (st : session_state) : session_state :=
  set_ss_periods st (filter (fun r => negb (start r =? target)) (ss_periods st)).

(** ** [calculate_predictions] *)

(** [sorted(periods, key=lambda x: x['start'], reverse=True)]: a stable sort,
    records with the same start keep their order. *)
Fixpoint insert_desc (x : period) (l : list period) : list period :=
  match l with
  | [] => [x]
  | y :: ys => if start x <? start y then y :: insert_desc x ys else x :: l
  end.

Definition sorted_desc (periods : list period) : list period :=
  fold_right insert_desc [] periods.

(** [sum((start_dates[i] - start_dates[i+1]).days
         for i in range(len(start_dates) - 1))]. *)
Definition total_cycle_length (start_dates : list Z) : Z :=
  py_sum (map (fun i => PyDate.days_between (nth i start_dates 0)
                                            (nth (S i) start_dates 0))
              (seq 0 (length start_dates - 1))).

(** [sum((r['end'] - r['start']).days + 1 for r in periods)]. *)
Definition total_period_length (periods : list period) : Z :=
  py_sum (map (fun r => PyDate.days_between (end_ r) (start r) + 1) periods).

Definition default_result (avg_cycle0 target : Z) (st : session_state) : Result :=
  mkResult None None avg_cycle0 (ss_avg_period_length st)
    StageNoRecord DetailNoRecord 0 None target None.

(** Step 1 of the function: the two averages.  Returns the local [avg_cycle],
    the result dictionary and the session state after the two stores. *)
Definition update_averages (periods sorted_periods : list period)
    (avg_cycle0 : Z) (result : Result) (st : session_state)
  : Z * Result * session_state :=
  let start_dates := map start sorted_periods in
  let '(avg_cycle1, result, st) :=
    if (1 <? length start_dates)%nat then
      let avg := py_round_div (total_cycle_length start_dates)
                              (Z.of_nat (length start_dates - 1)) in
      (avg, set_avg_cycle result avg, set_ss_avg_cycle st avg)
    else (avg_cycle0, result, st) in
  if (0 <? length periods)%nat then
    let avg := py_round_div (total_period_length periods)
                            (Z.of_nat (length periods)) in
    (avg_cycle1, set_avg_period_length result avg,
     set_ss_avg_period_length st avg)
  else (avg_cycle1, result, st).

(** The value of the local variable [avg_cycle] once step 1 is done, and the
    value step 1 stores in [avg_period_length] for a history with a record. *)
Definition local_avg_cycle (periods : list period) (avg_cycle0 : Z) : Z :=
  let start_dates := map start (sorted_desc periods) in
  if (1 <? length start_dates)%nat then
    py_round_div (total_cycle_length start_dates)
                 (Z.of_nat (length start_dates - 1))
  else avg_cycle0.

Definition menses_average (periods : list period) : Z :=
  py_round_div (total_period_length periods) (Z.of_nat (length periods)).

(** [round(sum(l) / len(l))], the expression both averages are computed
    with. *)
Definition py_rounded_mean (l : list Z) : Z :=
  py_round_div (py_sum l) (Z.of_nat (length l)).

(** The branch for a target after the last recorded end: the projection is
    carried forward cycle by cycle. *)
Definition classify_projected (last_start acycle menses_duration target : Z)
    (day_in_entire_history : Z) (result : Result) : outcome Result :=
  m <- py_mod (day_in_entire_history - 1) acycle ;;
  let day_in_projected_cycle := m + 1 in
  cycles_passed <- py_floordiv (day_in_entire_history - 1) acycle ;;
  td <- PyDate.timedelta (cycles_passed * acycle) ;;
  projected_cycle_start <- PyDate.date_add last_start td ;;
  td <- PyDate.timedelta acycle ;;
  projected_next_period_start <- PyDate.date_add projected_cycle_start td ;;
  let result := set_days_to_next_period result
    (Some (PyDate.days_between projected_next_period_start target)) in
  let result := set_next_period_start result (Some projected_next_period_start) in
  td <- PyDate.timedelta (menses_duration - 1) ;;
  projected_menses_end <- PyDate.date_add projected_cycle_start td ;;
  td <- PyDate.timedelta 14 ;;
  projected_ovulation_date <- PyDate.date_sub projected_next_period_start td ;;
  td <- PyDate.timedelta 5 ;;
  projected_fertile_start <- PyDate.date_sub projected_ovulation_date td ;;
  let projected_fertile_end := projected_ovulation_date in
  if (projected_cycle_start <=? target) && (target <=? projected_menses_end) then
    Ok (set_stage result (StageMensesProjected day_in_projected_cycle)
          DetailProjectedMenses)
  else if projected_next_period_start <=? target then
    Ok (set_days_to_next_period
          (set_stage result (StageDelayed day_in_projected_cycle) DetailDelayed)
          (Some 0))
  else if projected_fertile_end <? target then
    Ok (set_stage result (StageLuteal day_in_projected_cycle)
          (DetailLuteal day_in_projected_cycle
             (PyDate.days_between projected_next_period_start target)))
  else if (projected_fertile_start <=? target)
          && (target <=? projected_fertile_end) then
    Ok (set_stage result (StageFertile day_in_projected_cycle)
          (DetailFertile day_in_projected_cycle))
  else if target <? projected_fertile_start then
    Ok (set_stage result (StageFollicular day_in_projected_cycle)
          (DetailFollicular day_in_projected_cycle
             (PyDate.days_between projected_fertile_start target)))
  else Ok result.

(** Step 3 of the function: the stage of the target date. *)
Definition classify (last_start last_end acycle menses_duration target : Z)
    (result : Result) : outcome Result :=
  let day_in_entire_history := PyDate.days_between target last_start + 1 in
  let result := set_day_since_start result day_in_entire_history in
  if target <? last_start then
    let result := set_stage result StageHistorical
                    (DetailHistorical target last_start) in
    td <- PyDate.timedelta acycle ;;
    projected_next_period_start <- PyDate.date_add last_start td ;;
    let result := set_next_period_start result (Some projected_next_period_start) in
    Ok (set_days_to_next_period result
          (if target <? projected_next_period_start
           then Some (PyDate.days_between projected_next_period_start target)
           else None))
  else if target <=? last_end then
    let result := set_stage result (StageMensesRecorded day_in_entire_history)
                    (DetailRecorded last_start last_end) in
    td <- PyDate.timedelta acycle ;;
    projected_next_period_start <- PyDate.date_add last_start td ;;
    let result := set_next_period_start result (Some projected_next_period_start) in
    Ok (set_days_to_next_period result
          (if target <? projected_next_period_start
           then Some (PyDate.days_between projected_next_period_start target)
           else Some 0))
  else
    classify_projected last_start acycle menses_duration target
      day_in_entire_history result.

(** The whole function.  The session state is threaded explicitly: the value
    returned with the outcome is [st.session_state] when the call ends, also
    when it ends in an exception. *)
Definition calculate_predictions (periods : list period) (avg_cycle0 : Z)
    (target : Z) (st : session_state) : outcome Result * session_state :=
  let result := default_result avg_cycle0 target st in
  match periods with
  | [] => (Ok result, st)
  | first :: _ =>
    let sorted_periods := sorted_desc periods in
    let last_period_record := hd first sorted_periods in
    let last_start := start last_period_record in
    let last_end := end_ last_period_record in
    let result := set_last_period_date result (Some last_start) in
    let result := set_last_period_end_date result (Some last_end) in
    let '(acycle, result, st) :=
      update_averages periods sorted_periods avg_cycle0 result st in
    let projected_menses_duration := ss_avg_period_length st in
    (classify last_start last_end acycle projected_menses_duration target result,
     st)
  end.

(** The two call sites of the script: today's status and the queried date. *)
Definition today_status (today : Z) (st : session_state)
  : outcome Result * session_state :=
  calculate_predictions (ss_periods st) (ss_avg_cycle st) today st.

Definition query_status (query_target_date : Z) (st : session_state)
  : outcome Result * session_state :=
  calculate_predictions (ss_periods st) (ss_avg_cycle st) query_target_date st.

(** ** The words of the specification, for comparison with the code *)

(** The gaps between consecutive entries of a list of dates. *)
Fixpoint spec_consecutive_gaps (l : list Z) : list Z :=
  match l with
  | [] => []
  | a :: tl =>
    match tl with
    | [] => []
    | b :: _ => (a - b) :: spec_consecutive_gaps tl
    end
  end.

(** The sum of a list of day counts, added up from the left. *)
Definition spec_sum (l : list Z) : Z := fold_left Z.add l 0.

(** "[m] is the integer-rounded mean of [l]": the list has an entry and no
    integer is nearer to the exact mean [sum / count] than [m], that is,
    [|m - sum / count| <= 1/2], written without the division.  When the mean
    is exactly half-way between two integers both of them qualify; which one
    is taken is the tie rule, a separate matter. *)
Definition spec_integer_rounded_mean (l : list Z) (m : Z) : Prop :=
  l <> []
  /\ 2 * Z.abs (m * Z.of_nat (length l) - spec_sum l) <= Z.of_nat (length l).

(** A history "sorted by start descending". *)
Definition spec_sorted_desc (l : list period) : Prop :=
  StronglySorted (fun a b => start b <= start a) l.

(** The order in which the specification lists the phases of one cycle. *)
Definition spec_phase_order (p : phase) : Z :=
  match p with
  | MENSES => 0
  | FOLLICULAR => 1
  | FERTILE => 2
  | LUTEAL => 3
  | DELAYED => 4
  | HISTORICAL | NO_DATA => -1
  end.

(** A field of the dictionary a call returned, if it returned. *)
Definition returned {A : Type} (f : Result -> A)
    (call : outcome Result * session_state) : option A :=
  match fst call with
  | Ok r => Some (f r)
  | Raise _ => None
  end.

Definition phase_of (call : outcome Result * session_state) : option phase :=
  returned (fun r => clean_stage (current_stage r)) call.

(** ** What the script keeps true of the session *)

(** [save_period] refuses a second record with a start it already has and a
    record that ends before it starts; the averages start at 28 and 5 and are
    only overwritten by what step 1 computes. *)
Definition session_ok (st : session_state) : Prop :=
  NoDup (map start (ss_periods st))
  /\ Forall (fun p => start p <= end_ p) (ss_periods st)
  /\ 1 <= ss_avg_cycle st
  /\ 1 <= ss_avg_period_length st.

(** ** The text of the page *)

(** The stage labels are Python strings.  They are embedded as their UTF-8
    bytes: cutting at the ASCII character [(], comparing, and searching a
    substring give the same answers on the bytes of well-formed UTF-8 as on
    the code points. *)
Module UI.
Import String Ascii.

(** What the display code can raise beyond the exceptions of
    [calculate_predictions]: a date compared with [None], a list index out of
    range. *)
Inductive ui_exn : Type :=
| PyExn (e : exn)
| TypeError
| IndexError.

Inductive ui (A : Type) : Type :=
| Done (a : A)
| Fail (e : ui_exn).
Arguments Done {A} a.
Arguments Fail {A} e.

Definition ubind {A B : Type} (c : ui A) (k : A -> ui B) : ui B :=
  match c with
  | Done a => k a
  | Fail e => Fail e
  end.

Notation "x <~ c ;; k" := (ubind c (fun x => k))
  (at level 61, c at next level, right associativity).

Definition lift {A : Type} (o : outcome A) : ui A :=
  match o with
  | Ok a => Done a
  | Raise e => Fail (PyExn e)
  end.

(** [str(n)] for an integer, which is also how an f-string formats it. *)
Definition py_str (n : Z) : string :=
  DecimalString.NilZero.string_of_int (Z.to_int n).

(** [s.split(sep)[0]] for a one-character separator. *)
Fixpoint split_head (sep : ascii) (s : string) : string :=
  match s with
  | EmptyString => EmptyString
  | String c s' =>
    if Ascii.eqb c sep then EmptyString else String c (split_head sep s')
  end.

(** The white space [str.strip()] removes: below 128 the characters 9 to 13,
    28 to 31 and 32; above, U+0085, U+00A0, U+1680, U+2000 to U+200A, U+2028,
    U+2029, U+202F, U+205F and U+3000, here by their UTF-8 bytes. *)
Definition is_ascii_space (c : ascii) : bool :=
  let n := nat_of_ascii c in
  ((9 <=? n) && (n <=? 13) || (28 <=? n) && (n <=? 31) || (n =? 32))%nat.

Definition is_space2 (c1 c2 : ascii) : bool :=
  let a := nat_of_ascii c1 in
  let b := nat_of_ascii c2 in
  ((a =? 194) && ((b =? 133) || (b =? 160)))%nat.

Definition is_space3 (c1 c2 c3 : ascii) : bool :=
  let a := nat_of_ascii c1 in
  let b := nat_of_ascii c2 in
  let c := nat_of_ascii c3 in
  ((a =? 225) && (b =? 154) && (c =? 128)
   || (a =? 226) && (b =? 128)
      && ((128 <=? c) && (c <=? 138) || (c =? 168) || (c =? 169) || (c =? 175))
   || (a =? 226) && (b =? 129) && (c =? 159)
   || (a =? 227) && (b =? 128) && (c =? 128))%nat.

(** [s.lstrip()]. *)
Fixpoint lstrip (s : string) : string :=
  match s with
  | EmptyString => EmptyString
  | String c1 s1 =>
    if is_ascii_space c1 then lstrip s1
    else match s1 with
         | EmptyString => s
         | String c2 s2 =>
           if is_space2 c1 c2 then lstrip s2
           else match s2 with
                | EmptyString => s
                | String c3 s3 => if is_space3 c1 c2 c3 then lstrip s3 else s
                end
         end
  end.

(** The same on the reversed bytes, for the right end. *)
Fixpoint lstrip_reversed (s : string) : string :=
  match s with
  | EmptyString => EmptyString
  | String c1 s1 =>
    if is_ascii_space c1 then lstrip_reversed s1
    else match s1 with
         | EmptyString => s
         | String c2 s2 =>
           if is_space2 c2 c1 then lstrip_reversed s2
           else match s2 with
                | EmptyString => s
                | String c3 s3 =>
                  if is_space3 c3 c2 c1 then lstrip_reversed s3 else s
                end
         end
  end.

Definition string_rev (s : string) : string :=
  string_of_list_ascii (rev (list_ascii_of_string s)).

(** [s.strip()]. *)
Definition py_strip (s : string) : string :=
  string_rev (lstrip_reversed (string_rev (lstrip s))).

(** [needle in s]. *)
Fixpoint py_in (needle s : string) : bool :=
  prefix needle s
  || match s with
     | EmptyString => false
     | String _ s' => py_in needle s'
     end.

(** [l[i]] for a list: a negative index counts from the end. *)
Definition py_index {A : Type} (l : list A) (i : Z) : ui A :=
  let n := Z.of_nat (List.length l) in
  let j := if i <? 0 then i + n else i in
  if (0 <=? j) && (j <? n) then
    match nth_error l (Z.to_nat j) with
    | Some a => Done a
    | None => Fail IndexError
    end
  else Fail IndexError.

(** [d.weekday()]: Monday is 0. *)
Definition weekday (d : Z) : Z := (d + 6) mod 7.

Definition get_chinese_weekday (d : Z) : ui string :=
  let weekdays := ["一"; "二"; "三"; "四"; "五"; "六"; "日"]%string in
  w <~ py_index weekdays (weekday d) ;;
  Done ("週" ++ w)%string.

(** The value of [result['current_stage']] for each stage. *)
Definition stage_label (s : stage) : string :=
  match s with
  | StageNoRecord => "無紀錄"
  | StageHistorical => "🕒 **歷史查詢**"
  | StageMensesRecorded day => "🔴 **月經期** (第 " ++ py_str day ++ " 天)"
  | StageMensesProjected day => "🔴 **月經期** (預計週期日 " ++ py_str day ++ ")"
  | StageDelayed day => "⚠️ **週期可能延遲** (第 " ++ py_str day ++ " 天)"
  | StageLuteal day => "🔵 **黃體期** (預計週期日 " ++ py_str day ++ ")"
  | StageFertile day => "🟡 **排卵期** (預計週期日 " ++ py_str day ++ ")"
  | StageFollicular day => "🟢 **濾泡期** (預計週期日 " ++ py_str day ++ ")"
  end%string.

Definition tips : list (string * string) :=
  [ ("🔴 **月經期**",
     "建議多休息、保暖，多喝溫水，避免過度勞累及生冷食物，讓身體好好休息。");
    ("🟡 **排卵期**",
     "排卵期可能伴隨輕微腹痛或分泌物增多。請注意身體訊號，若有備孕/避孕需求請特別留意。");
    ("🟢 **濾泡期**",
     "身體狀態逐漸恢復，精力充沛。這是安排運動、挑戰新目標的最佳時期，多補充蛋白質。");
    ("🔵 **黃體期**",
     "這是經前症候群 (PMS) 好發期。保持心情愉悅，減少咖啡因攝取，注意情緒波動，準備迎接下次經期。");
    ("⚠️ **週期可能延遲**",
     "週期已超過平均天數。請確認是否有新紀錄未輸入，或考慮尋求專業醫療建議。") ]%string.

Definition default_tip : string := "請保持良好生活習慣，並確保輸入最新紀錄以獲得最準確的推算。"%string.

(** [d.get(key, default)] for a dictionary written as its items. *)
Fixpoint dict_get (d : list (string * string)) (key default : string) : string :=
  match d with
  | [] => default
  | (k, v) :: d' => if String.eqb k key then v else dict_get d' key default
  end.

Definition get_contextual_tip (stage : string) : string :=
  let clean_stage := py_strip (split_head "(" stage) in
  dict_get tips clean_stage default_tip.

(** *** The today panel (section 4a of the script) *)

Inductive notice : Type :=
| NoticeLate
| NoticeInPeriod
| NoticeDueToday
| NoticeDaysLeft (n : Z).

Record today_view : Type := mkTodayView {
  tv_date : Z;
  tv_weekday : string;
  tv_stage : string;
  tv_tip : option string;
  tv_notice : option notice
}.

(** [None] stands for the warning that there is no record yet. *)
Definition today_section (today : Z) (today_data : Result)
  : ui (option today_view) :=
  match last_period_date today_data with
  | None => Done None
  | Some _ =>
    let current_stage_for_today := stage_label (current_stage today_data) in
    today_weekday <~ get_chinese_weekday today ;;
    let shown := py_strip (split_head "(" current_stage_for_today) in
    let tip :=
      if negb (String.eqb current_stage_for_today "無紀錄")
         && negb (py_in "歷史查詢" current_stage_for_today)
      then Some (get_contextual_tip current_stage_for_today)
      else None in
    let days_to_next := days_to_next_period today_data in
    shown_notice <~
      (if py_in "週期可能延遲" current_stage_for_today then Done (Some NoticeLate)
       else
         in_recorded <~
           (if py_in "月經期" current_stage_for_today then
              match last_period_end_date today_data with
              | Some e => Done (target_date today_data <=? e)
              | None => Fail TypeError
              end
            else Done false) ;;
         if in_recorded then Done (Some NoticeInPeriod)
         else
           match days_to_next with
           | Some n =>
             if (n =? 0) && py_in "月經期" current_stage_for_today
             then Done (Some NoticeDueToday)
             else if 0 <? n then Done (Some (NoticeDaysLeft n))
             else Done None
           | None => Done None
           end) ;;
    Done (Some (mkTodayView today today_weekday shown tip shown_notice))
  end.

(** *** The query panel (section 4b) *)

Inductive query_notice : Type :=
| QueryDaysLeft (n : Z)
| QueryPeriodUntil (d : Z)
| QueryPeriodOver
| QueryLate.

Record query_view : Type := mkQueryView {
  qv_date : Z;
  qv_weekday : string;
  qv_stage : string;
  qv_notice : option query_notice
}.

Definition query_section (query_target_date : Z) (query_data : Result)
  : ui (option query_view) :=
  match last_period_date query_data with
  | None => Done None
  | Some last =>
    query_weekday <~ get_chinese_weekday query_target_date ;;
    let current_stage_for_query := stage_label (current_stage query_data) in
    let query_days_to_next := days_to_next_period query_data in
    let shown := py_strip (split_head "(" current_stage_for_query) in
    shown_notice <~
      (if negb (py_in "月經期" current_stage_for_query)
          && negb (py_in "週期可能延遲" current_stage_for_query)
          && match query_days_to_next with
             | Some n => 0 <? n
             | None => false
             end
       then Done (option_map QueryDaysLeft query_days_to_next)
       else if py_in "月經期" current_stage_for_query then
         let menses_duration := avg_period_length query_data in
         let days_since_start := PyDate.days_between query_target_date last in
         cycles_passed <~ lift (py_floordiv days_since_start (avg_cycle query_data)) ;;
         td <~ lift (PyDate.timedelta (cycles_passed * avg_cycle query_data)) ;;
         projected_cycle_start <~ lift (PyDate.date_add last td) ;;
         td <~ lift (PyDate.timedelta (menses_duration - 1)) ;;
         projected_menses_end <~ lift (PyDate.date_add projected_cycle_start td) ;;
         if query_target_date <=? projected_menses_end
         then Done (Some (QueryPeriodUntil projected_menses_end))
         else Done (Some QueryPeriodOver)
       else if py_in "週期可能延遲" current_stage_for_query then Done (Some QueryLate)
       else Done None) ;;
    Done (Some (mkQueryView query_target_date query_weekday shown shown_notice))
  end.

(** *** The next expected period (section 4c) *)

(** The date shown as the next expected start; [avg] is
    [st.session_state.avg_cycle] at that point of the script. *)
Definition next_period_section (today : Z) (today_data : Result) (avg : Z)
  : ui (option Z) :=
  match last_period_date today_data with
  | None => Done None
  | Some last =>
    let days_since_last := PyDate.days_between today last in
    cycles_passed_since_last <~ lift (py_floordiv days_since_last avg) ;;
    td <~ lift (PyDate.timedelta (cycles_passed_since_last * avg)) ;;
    projected_start <~ lift (PyDate.date_add last td) ;;
    after_end <~
      (if projected_start <=? today then
         match last_period_end_date today_data with
         | Some e => Done (e <? today)
         | None => Fail TypeError
         end
       else Done false) ;;
    if after_end then
      td <~ lift (PyDate.timedelta avg) ;;
      d <~ lift (PyDate.date_add projected_start td) ;;
      Done (Some d)
    else
      in_period <~
        match last_period_end_date today_data with
        | Some e => Done (today <=? e)
        | None => Fail TypeError
        end ;;
      if in_period then
        td <~ lift (PyDate.timedelta avg) ;;
        d <~ lift (PyDate.date_add last td) ;;
        Done (Some d)
      else Done (Some projected_start)
  end.

(** *** The history list (section 6) *)

(** The two averages of the info line and the records in display order;
    [None] stands for the note that there is no history yet. *)
Definition history_section (st : session_state)
  : option (Z * Z * list period) :=
  match ss_periods st with
  | [] => None
  | _ :: _ =>
    Some (ss_avg_cycle st, ss_avg_period_length st, sorted_desc (ss_periods st))
  end.

(** *** One run of the script *)

Record page_view : Type := mkPageView {
  pv_today : option today_view;
  pv_query : option query_view;
  pv_next : option Z;
  pv_history : option (Z * Z * list period)
}.

(** The sections in the order of the script; an exception ends the run, the
    session state stays as the run has left it. *)
Definition run_page (today query : Z) (st : session_state)
  : ui page_view * session_state :=
  let '(o1, st1) := today_status today st in
  match o1 with
  | Raise e => (Fail (PyExn e), st1)
  | Ok today_data =>
    match today_section today today_data with
    | Fail e => (Fail e, st1)
    | Done tv =>
      let '(o2, st2) := query_status query st1 in
      match o2 with
      | Raise e => (Fail (PyExn e), st2)
      | Ok query_data =>
        match query_section query query_data with
        | Fail e => (Fail e, st2)
        | Done qv =>
          match next_period_section today today_data (ss_avg_cycle st2) with
          | Fail e => (Fail e, st2)
          | Done nx =>
            (Done (mkPageView tv qv nx (history_section st2)), st2)
          end
        end
      end
    end
  end.

(** *** A user action and the run it triggers *)

(** The form calls [save_period] at the top of the script: an accepted save
    ends in [st.rerun()], which runs the page on the new state, and a refused
    one lets the current run go on to the sections.  The delete button calls
    [delete_period] before the script body of the next run.  Either way the
    state change is followed by the sections of the page. *)
Definition submit_save (today query new_start new_end : Z) (st : session_state)
  : session_state :=
  snd (run_page today query (save_period new_start new_end st)).

Definition click_delete (today query target : Z) (st : session_state)
  : session_state :=
  snd (run_page today query (delete_period target st)).

End UI.

(** ** Histories used in the examples *)

(** A history of three records, entered out of order: periods of 5, 4 and 6
    days starting on 2024-01-29, 2024-01-01 and 2024-02-27. *)
Definition history3 : list period :=
  [ mkPeriod (PyDate.ymd2ord 2024 1 29) (PyDate.ymd2ord 2024 2 2);
    mkPeriod (PyDate.ymd2ord 2024 1 1) (PyDate.ymd2ord 2024 1 4);
    mkPeriod (PyDate.ymd2ord 2024 2 27) (PyDate.ymd2ord 2024 3 3) ].

(** The history of the examples: one period, 2024-01-01 to 2024-01-05. *)
Definition history1 : list period :=
  [ mkPeriod (PyDate.ymd2ord 2024 1 1) (PyDate.ymd2ord 2024 1 5) ].

(** A history of two records, of 4 and 5 days, 28 days apart. *)
Definition history2 : list period :=
  [ mkPeriod (PyDate.ymd2ord 2024 1 1) (PyDate.ymd2ord 2024 1 4);
    mkPeriod (PyDate.ymd2ord 2024 1 29) (PyDate.ymd2ord 2024 2 2) ].

(** Two periods of 4 days, 30 days apart. *)
Definition history30 : list period :=
  [ mkPeriod (PyDate.ymd2ord 2024 1 1) (PyDate.ymd2ord 2024 1 4);
    mkPeriod (PyDate.ymd2ord 2024 1 31) (PyDate.ymd2ord 2024 2 3) ].

(** ** Tactics *)

Ltac bool_to_prop :=
  repeat match goal with
  | H : (_ && _) = true |- _ => apply andb_true_iff in H; destruct H
  | H : (_ && _) = false |- _ => apply andb_false_iff in H
  | H : (_ <=? _) = true |- _ => apply Z.leb_le in H
  | H : (_ <=? _) = false |- _ => apply Z.leb_gt in H
  | H : (_ <? _) = true |- _ => apply Z.ltb_lt in H
  | H : (_ <? _) = false |- _ => apply Z.ltb_ge in H
  | H : (_ =? _) = true |- _ => apply Z.eqb_eq in H
  | H : (_ =? _) = false |- _ => apply Z.eqb_neq in H
  end.

(** Splits [x <- c ;; k = Ok r] into [c = Ok x] and [k x = Ok r]. *)
Ltac bind_inv H :=
  match type of H with
  | bind ?c _ = Ok _ =>
    let E := fresh "E" in
    destruct c eqn:E; cbn [bind] in H; [|discriminate H]
  end.

(** ** The sort *)

Section Sorting.

Lemma insert_desc_perm (x : period) (l : list period) :
  Permutation (insert_desc x l) (x :: l).
Proof.
  induction l as [|y ys IH]; simpl.
  - apply Permutation_refl.
  - destruct (start x <? start y).
    + rewrite IH. apply perm_swap.
    + apply Permutation_refl.
Qed.

Lemma sorted_desc_perm (l : list period) : Permutation (sorted_desc l) l.
Proof.
  induction l as [|x xs IH]; simpl.
  - constructor.
  - rewrite insert_desc_perm. now constructor.
Qed.

Lemma insert_desc_sorted (x : period) (l : list period) :
  spec_sorted_desc l -> spec_sorted_desc (insert_desc x l).
Proof.
  unfold spec_sorted_desc.
  induction l as [|y ys IH]; simpl; intros Hs.
  - repeat constructor.
  - inversion Hs as [|? ? Hys Hall]; subst.
    destruct (start x <? start y) eqn:E.
    + apply Z.ltb_lt in E. constructor; [now apply IH|].
      eapply Permutation_Forall.
      * symmetry. apply insert_desc_perm.
      * constructor; [lia | exact Hall].
    + apply Z.ltb_ge in E. constructor; [exact Hs|].
      constructor; [exact E|].
      eapply Forall_impl; [|exact Hall]. simpl. intros; lia.
Qed.

Lemma sorted_desc_sorted (l : list period) : spec_sorted_desc (sorted_desc l).
Proof.
  induction l as [|x xs IH]; simpl.
  - constructor.
  - now apply insert_desc_sorted.
Qed.

Lemma sorted_desc_length (l : list period) :
  length (sorted_desc l) = length l.
Proof. apply Permutation_length, sorted_desc_perm. Qed.

(** Two descending lists of dates with the same entries are the same list. *)
Lemma desc_sorted_unique (l1 l2 : list Z) :
  StronglySorted Z.ge l1 -> StronglySorted Z.ge l2 ->
  Permutation l1 l2 -> l1 = l2.
Proof.
  revert l2. induction l1 as [|a l1 IH]; intros l2 H1 H2 HP.
  - apply Permutation_nil in HP. now subst.
  - destruct l2 as [|b l2].
    + symmetry in HP. apply Permutation_nil in HP. discriminate.
    + inversion H1 as [|? ? H1' A1]; subst.
      inversion H2 as [|? ? H2' A2]; subst.
      assert (a = b) as ->.
      { assert (In a (b :: l2)) as Ia
          by (eapply Permutation_in; [exact HP | now left]).
        assert (In b (a :: l1)) as Ib
          by (eapply Permutation_in; [symmetry; exact HP | now left]).
        rewrite Forall_forall in A1, A2.
        destruct Ia as [->|Ia]; [reflexivity|].
        destruct Ib as [->|Ib]; [reflexivity|].
        specialize (A1 _ Ib). specialize (A2 _ Ia). lia. }
      f_equal. apply IH; auto. now apply Permutation_cons_inv in HP.
Qed.

Lemma spec_sorted_starts (l : list period) :
  spec_sorted_desc l -> StronglySorted Z.ge (map start l).
Proof.
  unfold spec_sorted_desc. induction 1 as [|a l Hl IH Ha]; simpl.
  - constructor.
  - constructor; [exact IH|].
    rewrite Forall_map. eapply Forall_impl; [|exact Ha]. simpl. intros; lia.
Qed.

(** Whatever the order of the input, the sort yields the same dates. *)
Lemma sorted_starts_unique (s periods : list period) :
  Permutation s periods -> spec_sorted_desc s ->
  map start s = map start (sorted_desc periods).
Proof.
  intros HP Hs. apply desc_sorted_unique.
  - now apply spec_sorted_starts.
  - apply spec_sorted_starts, sorted_desc_sorted.
  - apply Permutation_map. rewrite HP. symmetry. apply sorted_desc_perm.
Qed.

(** The head of the sorted list is a record with the latest start. *)
Lemma last_record_latest (periods : list period) (last : period) :
  hd_error (sorted_desc periods) = Some last ->
  In last periods /\ forall p, In p periods -> start p <= start last.
Proof.
  intros H. pose proof (sorted_desc_sorted periods) as Hs.
  pose proof (sorted_desc_perm periods) as HP.
  destruct (sorted_desc periods) as [|x xs]; [discriminate|].
  injection H as ->. split.
  - eapply Permutation_in; [exact HP | now left].
  - intros p Hp.
    assert (In p (last :: xs)) as [->|Hin]
      by (eapply Permutation_in; [symmetry; exact HP | exact Hp]).
    + lia.
    + inversion Hs as [|? ? _ Hall]; subst.
      rewrite Forall_forall in Hall. now apply Hall.
Qed.

Lemma sorted_desc_nonempty (periods : list period) :
  periods <> [] -> exists last, hd_error (sorted_desc periods) = Some last.
Proof.
  intros Hne. pose proof (sorted_desc_length periods) as Hl.
  destruct (sorted_desc periods) as [|x xs].
  - destruct periods; [congruence | discriminate].
  - now exists x.
Qed.

End Sorting.

(** ** The averages *)

Section Averages.

Lemma py_sum_app (l1 l2 : list Z) : py_sum (l1 ++ l2) = py_sum l1 + py_sum l2.
Proof. induction l1 as [|a l1 IH]; simpl; [reflexivity | rewrite IH; lia]. Qed.

Lemma py_sum_perm (l1 l2 : list Z) :
  Permutation l1 l2 -> py_sum l1 = py_sum l2.
Proof. induction 1; simpl; lia. Qed.

(** The indexed sum of the code, one step at a time. *)
Lemma total_cycle_length_step (a b : Z) (l : list Z) :
  total_cycle_length (a :: b :: l) = (a - b) + total_cycle_length (b :: l).
Proof.
  unfold total_cycle_length, PyDate.days_between.
  change (length (a :: b :: l) - 1)%nat with (S (length l)).
  replace (length (b :: l) - 1)%nat with (length l) by (simpl; lia).
  simpl seq. rewrite <- seq_shift. cbn [map]. rewrite map_map. reflexivity.
Qed.

(** The indexed sum is the sum of the consecutive gaps. *)
Lemma total_cycle_length_gaps (l : list Z) :
  total_cycle_length l = py_sum (spec_consecutive_gaps l).
Proof.
  induction l as [|a [|b l] IH]; try reflexivity.
  rewrite total_cycle_length_step, IH. reflexivity.
Qed.

Lemma spec_consecutive_gaps_length (l : list Z) :
  length (spec_consecutive_gaps l) = (length l - 1)%nat.
Proof.
  induction l as [|a [|b l] IH]; try reflexivity.
  change (length (spec_consecutive_gaps (a :: b :: l)))
    with (S (length (spec_consecutive_gaps (b :: l)))).
  rewrite IH. simpl. lia.
Qed.

(** The gaps telescope: their sum is the first date minus the last. *)
Lemma total_cycle_length_telescope (a d : Z) (l : list Z) :
  total_cycle_length (a :: l) = a - last (a :: l) d.
Proof.
  revert a. induction l as [|b l IH]; intros a.
  - unfold total_cycle_length. simpl. lia.
  - rewrite total_cycle_length_step, IH.
    change (last (a :: b :: l) d) with (last (b :: l) d). lia.
Qed.

Lemma total_period_length_perm (l1 l2 : list period) :
  Permutation l1 l2 -> total_period_length l1 = total_period_length l2.
Proof.
  intros HP. unfold total_period_length.
  apply py_sum_perm, Permutation_map, HP.
Qed.

Lemma menses_average_perm (l1 l2 : list period) :
  Permutation l1 l2 -> menses_average l1 = menses_average l2.
Proof.
  intros HP. unfold menses_average.
  now rewrite (total_period_length_perm _ _ HP), (Permutation_length HP).
Qed.

Lemma local_avg_cycle_perm (l1 l2 : list period) (avg_cycle0 : Z) :
  Permutation l1 l2 -> local_avg_cycle l1 avg_cycle0 = local_avg_cycle l2 avg_cycle0.
Proof.
  intros HP. unfold local_avg_cycle.
  replace (map start (sorted_desc l1)) with (map start (sorted_desc l2));
    [reflexivity|].
  symmetry. apply sorted_starts_unique.
  - rewrite sorted_desc_perm. exact HP.
  - apply sorted_desc_sorted.
Qed.

(** Step 1 in terms of the two values. *)
Lemma update_averages_spec (periods : list period) (avg_cycle0 : Z)
    (result : Result) (st : session_state) :
  periods <> [] ->
  exists result' st',
    update_averages periods (sorted_desc periods) avg_cycle0 result st
      = (local_avg_cycle periods avg_cycle0, result', st')
    /\ avg_cycle result'
         = (if (1 <? length periods)%nat
            then local_avg_cycle periods avg_cycle0 else avg_cycle result)
    /\ avg_period_length result' = menses_average periods
    /\ ss_avg_cycle st'
         = (if (1 <? length periods)%nat
            then local_avg_cycle periods avg_cycle0 else ss_avg_cycle st)
    /\ ss_avg_period_length st' = menses_average periods
    /\ ss_periods st' = ss_periods st
    /\ ss_query_date st' = ss_query_date st.
Proof.
  intros Hne. unfold update_averages, local_avg_cycle, menses_average.
  rewrite length_map, sorted_desc_length.
  assert ((0 <? length periods)%nat = true) as ->.
  { apply Nat.ltb_lt. destruct periods; [congruence | simpl; lia]. }
  destruct (1 <? length periods)%nat; simpl;
    eexists; eexists; (split; [reflexivity|]); simpl; repeat split.
Qed.

(** [round] stays within one of the floor of the quotient. *)
Lemma py_round_div_bounds (p q : Z) :
  p / q <= py_round_div p q <= p / q + 1.
Proof.
  unfold py_round_div.
  destruct (2 * (p mod q) <? q); [lia|].
  destruct (q <? 2 * (p mod q)); [lia|].
  destruct (Z.even (p / q)); lia.
Qed.

Lemma py_round_div_pos (p q : Z) : 0 < q <= p -> 1 <= py_round_div p q.
Proof.
  intros Hq. pose proof (py_round_div_bounds p q).
  pose proof (Z.div_str_pos p q Hq). lia.
Qed.

(** Distinct start dates in descending order are at least a day apart. *)
Lemma distinct_gaps_sum (l : list Z) :
  StronglySorted Z.ge l -> NoDup l ->
  Z.of_nat (length (spec_consecutive_gaps l)) <= py_sum (spec_consecutive_gaps l).
Proof.
  induction l as [|a [|b l] IH]; intros Hs Hd; try (simpl; lia).
  inversion Hs as [|? ? Hs' Ha]; subst. inversion Hd as [|? ? Hn Hd']; subst.
  specialize (IH Hs' Hd').
  change (spec_consecutive_gaps (a :: b :: l))
    with ((a - b) :: spec_consecutive_gaps (b :: l)).
  cbn [length py_sum fold_right]. fold (py_sum (spec_consecutive_gaps (b :: l))).
  inversion Ha as [|? ? Hab _]; subst.
  assert (a <> b) by (intros ->; apply Hn; now left).
  lia.
Qed.

(** With distinct start dates the computed cycle average is a positive
    number of days, which is what the projected branch divides by. *)
Lemma local_avg_cycle_pos (periods : list period) (avg_cycle0 : Z) :
  NoDup (map start periods) -> (2 <= length periods)%nat ->
  1 <= local_avg_cycle periods avg_cycle0.
Proof.
  intros Hd Hlen. unfold local_avg_cycle.
  rewrite length_map, sorted_desc_length.
  assert ((1 <? length periods)%nat = true) as -> by (apply Nat.ltb_lt; lia).
  apply py_round_div_pos. split; [lia|].
  rewrite total_cycle_length_gaps.
  replace (length periods - 1)%nat
    with (length (spec_consecutive_gaps (map start (sorted_desc periods))))
    by (now rewrite spec_consecutive_gaps_length, length_map, sorted_desc_length).
  apply distinct_gaps_sum.
  - apply spec_sorted_starts, sorted_desc_sorted.
  - eapply Permutation_NoDup; [|exact Hd].
    apply Permutation_map. symmetry. apply sorted_desc_perm.
Qed.

(** With [end >= start] in every record the period average is at least one
    day. *)
Lemma menses_average_pos (periods : list period) :
  periods <> [] -> Forall (fun p => start p <= end_ p) periods ->
  1 <= menses_average periods.
Proof.
  intros Hne Hall. unfold menses_average. apply py_round_div_pos.
  split; [destruct periods; [congruence | simpl length; lia]|].
  clear Hne. unfold total_period_length, PyDate.days_between.
  induction Hall as [|p l Hp _ IH]; [simpl; lia|].
  cbn [map length py_sum fold_right].
  fold (py_sum (map (fun r => end_ r - start r + 1) l)). lia.
Qed.

End Averages.

(** ** The shape of a call *)

Section Call.

Variables (periods : list period) (avg_cycle0 target : Z) (st : session_state).

(** On a history with a record, the call is step 1 followed by [classify]
    on the latest record, with the averages step 1 has just computed. *)
Lemma calculate_predictions_nonempty (last : period) :
  hd_error (sorted_desc periods) = Some last ->
  exists result st',
    calculate_predictions periods avg_cycle0 target st
      = (classify (start last) (end_ last)
           (local_avg_cycle periods avg_cycle0) (menses_average periods)
           target result, st')
    /\ avg_cycle result = local_avg_cycle periods avg_cycle0
    /\ avg_period_length result = menses_average periods
    /\ ss_avg_cycle st'
         = (if (1 <? length periods)%nat
            then local_avg_cycle periods avg_cycle0 else ss_avg_cycle st)
    /\ ss_avg_period_length st' = menses_average periods
    /\ ss_periods st' = ss_periods st
    /\ ss_query_date st' = ss_query_date st.
Proof.
  intros Hlast. unfold calculate_predictions.
  destruct periods as [|first rest] eqn:Ep; [discriminate|].
  rewrite <- Ep in *.
  assert (hd first (sorted_desc periods) = last) as ->
    by (destruct (sorted_desc periods); [discriminate | now injection Hlast]).
  match goal with
  | |- context [update_averages periods (sorted_desc periods) avg_cycle0 ?r st] =>
    destruct (update_averages_spec periods avg_cycle0 r st)
      as (r' & st' & E & Hc & Hm & Hsc & Hsm & Hp & Hq);
      [rewrite Ep; discriminate|]
  end.
  rewrite E. exists r', st'. rewrite Hsm.
  split; [reflexivity|]. repeat split; auto.
  rewrite Hc. unfold local_avg_cycle.
  rewrite length_map, sorted_desc_length.
  destruct (1 <? length periods)%nat; reflexivity.
Qed.

End Call.

(** ** The classification *)

Section PyDateFacts.

Lemma timedelta_ok (n x : Z) :
  PyDate.timedelta n = Ok x -> x = n /\ Z.abs n <= PyDate.MAX_DELTA_DAYS.
Proof.
  unfold PyDate.timedelta. destruct (Z.abs n <=? _) eqn:E; [|discriminate].
  intros [= <-]. bool_to_prop. auto.
Qed.

Lemma timedelta_returns (n : Z) :
  Z.abs n <= PyDate.MAX_DELTA_DAYS -> PyDate.timedelta n = Ok n.
Proof.
  intros H. unfold PyDate.timedelta.
  apply Z.leb_le in H. now rewrite H.
Qed.

Lemma date_add_ok (d td o : Z) :
  PyDate.date_add d td = Ok o -> o = d + td /\ 0 < o <= PyDate.MAXORDINAL.
Proof.
  unfold PyDate.date_add. destruct (_ && _) eqn:E; [|discriminate].
  intros [= <-]. bool_to_prop. auto.
Qed.

Lemma date_add_returns (d td : Z) :
  0 < d + td <= PyDate.MAXORDINAL -> PyDate.date_add d td = Ok (d + td).
Proof.
  intros [H1 H2]. unfold PyDate.date_add.
  apply Z.ltb_lt in H1. apply Z.leb_le in H2. now rewrite H1, H2.
Qed.

Lemma date_sub_ok (d td o : Z) :
  PyDate.date_sub d td = Ok o -> o = d - td /\ 0 < o <= PyDate.MAXORDINAL.
Proof.
  unfold PyDate.date_sub. intros H. apply date_add_ok in H. lia.
Qed.

Lemma date_sub_returns (d td : Z) :
  0 < d - td <= PyDate.MAXORDINAL -> PyDate.date_sub d td = Ok (d - td).
Proof.
  intros H. unfold PyDate.date_sub. rewrite date_add_returns by lia.
  reflexivity.
Qed.

Lemma py_mod_ok (a b m : Z) : py_mod a b = Ok m -> m = a mod b /\ b <> 0.
Proof.
  unfold py_mod. destruct (b =? 0) eqn:E; [discriminate|].
  intros [= <-]. bool_to_prop. auto.
Qed.

Lemma py_floordiv_ok (a b q : Z) :
  py_floordiv a b = Ok q -> q = a / b /\ b <> 0.
Proof.
  unfold py_floordiv. destruct (b =? 0) eqn:E; [discriminate|].
  intros [= <-]. bool_to_prop. auto.
Qed.

End PyDateFacts.

Section Classification.

Variables (last_start last_end acycle menses_duration target : Z).

(** What a returning call of the projected branch has decided: the five
    checks in the order of the code, each with the checks before it failed. *)
Lemma classify_projected_ok (d : Z) (R r : Result) :
  classify_projected last_start acycle menses_duration target d R = Ok r ->
  let m := (d - 1) mod acycle in
  let pcs := last_start + (d - 1) / acycle * acycle in
  let pnps := pcs + acycle in
  acycle <> 0
  /\ next_period_start r = Some pnps
  /\ avg_cycle r = avg_cycle R
  /\ avg_period_length r = avg_period_length R
  /\ day_since_start r = day_since_start R
  /\ stage_day (current_stage r) = Some (m + 1)
  /\ ((current_stage r = StageMensesProjected (m + 1)
       /\ days_to_next_period r = Some (pnps - target)
       /\ pcs <= target <= pcs + (menses_duration - 1))
      \/ (current_stage r = StageDelayed (m + 1)
          /\ days_to_next_period r = Some 0
          /\ ~ pcs <= target <= pcs + (menses_duration - 1)
          /\ pnps <= target)
      \/ (current_stage r = StageLuteal (m + 1)
          /\ days_to_next_period r = Some (pnps - target)
          /\ ~ pcs <= target <= pcs + (menses_duration - 1)
          /\ pnps - 14 < target < pnps)
      \/ (current_stage r = StageFertile (m + 1)
          /\ days_to_next_period r = Some (pnps - target)
          /\ ~ pcs <= target <= pcs + (menses_duration - 1)
          /\ pnps - 19 <= target <= pnps - 14 /\ target < pnps)
      \/ (current_stage r = StageFollicular (m + 1)
          /\ days_to_next_period r = Some (pnps - target)
          /\ ~ pcs <= target <= pcs + (menses_duration - 1)
          /\ target < pnps - 19 /\ target < pnps)).
Proof.
  unfold classify_projected. intros H.
  bind_inv H. apply py_mod_ok in E as [-> Hne].
  bind_inv H. apply py_floordiv_ok in E as [-> _].
  bind_inv H. apply timedelta_ok in E as [-> _].
  bind_inv H. apply date_add_ok in E as [-> _].
  bind_inv H. apply timedelta_ok in E as [-> _].
  bind_inv H. apply date_add_ok in E as [-> _].
  bind_inv H. apply timedelta_ok in E as [-> _].
  bind_inv H. apply date_add_ok in E as [-> _].
  bind_inv H. apply timedelta_ok in E as [-> _].
  bind_inv H. apply date_sub_ok in E as [-> _].
  bind_inv H. apply timedelta_ok in E as [-> _].
  bind_inv H. apply date_sub_ok in E as [-> _].
  unfold PyDate.days_between in H.
  repeat match type of H with
         | (if ?b then _ else _) = _ => destruct b eqn:?
         end;
    injection H as <-; cbn; bool_to_prop;
    repeat (split; [first [reflexivity | assumption]|]);
    first
      [ left; repeat split; (reflexivity || lia)
      | right; left; repeat split; (reflexivity || lia)
      | right; right; left; repeat split; (reflexivity || lia)
      | right; right; right; left; repeat split; (reflexivity || lia)
      | right; right; right; right; repeat split; (reflexivity || lia)
      | exfalso; lia ].
Qed.

(** The projected branch returns as soon as every date it builds is in the
    calendar. *)
Lemma classify_projected_returns (d : Z) (R : Result) :
  let pcs := last_start + (d - 1) / acycle * acycle in
  acycle <> 0 ->
  Z.abs ((d - 1) / acycle * acycle) <= PyDate.MAX_DELTA_DAYS ->
  0 < pcs <= PyDate.MAXORDINAL ->
  Z.abs acycle <= PyDate.MAX_DELTA_DAYS ->
  19 < pcs + acycle <= PyDate.MAXORDINAL ->
  Z.abs (menses_duration - 1) <= PyDate.MAX_DELTA_DAYS ->
  0 < pcs + (menses_duration - 1) <= PyDate.MAXORDINAL ->
  exists r, classify_projected last_start acycle menses_duration target d R = Ok r.
Proof.
  intros pcs Hne H1 H2 H3 H4 H5 H6. subst pcs.
  unfold classify_projected, py_mod, py_floordiv.
  apply Z.eqb_neq in Hne. rewrite Hne. cbn [bind].
  rewrite (timedelta_returns _ H1). cbn [bind].
  rewrite (date_add_returns _ _ H2). cbn [bind].
  rewrite (timedelta_returns _ H3). cbn [bind].
  rewrite (date_add_returns _ _ (conj (Z.lt_trans _ _ _ (eq_refl : 0 < 19) (proj1 H4)) (proj2 H4))).
  cbn [bind].
  rewrite (timedelta_returns _ H5). cbn [bind].
  rewrite (date_add_returns _ _ H6). cbn [bind].
  rewrite (timedelta_returns 14) by (now vm_compute). cbn [bind].
  rewrite date_sub_returns by lia. cbn [bind].
  rewrite (timedelta_returns 5) by (now vm_compute). cbn [bind].
  rewrite date_sub_returns by lia. cbn [bind].
  repeat match goal with
         | |- exists _, (if ?b then _ else _) = _ => destruct b
         end; eexists; reflexivity.
Qed.

(** The three branches of step 3. *)
Lemma classify_ok (R r : Result) :
  classify last_start last_end acycle menses_duration target R = Ok r ->
  let pnps := last_start + acycle in
  (target < last_start
   /\ current_stage r = StageHistorical
   /\ next_period_start r = Some pnps
   /\ days_to_next_period r
        = (if 0 <? pnps - target then Some (pnps - target) else None)
   /\ avg_cycle r = avg_cycle R /\ avg_period_length r = avg_period_length R)
  \/ (last_start <= target <= last_end
      /\ current_stage r = StageMensesRecorded (target - last_start + 1)
      /\ next_period_start r = Some pnps
      /\ days_to_next_period r = Some (Z.max (pnps - target) 0)
      /\ avg_cycle r = avg_cycle R /\ avg_period_length r = avg_period_length R)
  \/ (last_start <= target /\ last_end < target
      /\ classify_projected last_start acycle menses_duration target
           (target - last_start + 1)
           (set_day_since_start R (target - last_start + 1)) = Ok r).
Proof.
  unfold classify, PyDate.days_between. intros H.
  destruct (target <? last_start) eqn:E1.
  - left. bind_inv H. apply timedelta_ok in E as [-> _].
    bind_inv H. apply date_add_ok in E as [-> _].
    injection H as <-. cbn. bool_to_prop.
    repeat split; try reflexivity; try lia.
    destruct (target <? last_start + acycle) eqn:E2,
             (0 <? last_start + acycle - target) eqn:E3;
      bool_to_prop; (reflexivity || lia).
  - destruct (target <=? last_end) eqn:E2.
    + right; left. bind_inv H. apply timedelta_ok in E as [-> _].
      bind_inv H. apply date_add_ok in E as [-> _].
      injection H as <-. cbn. bool_to_prop.
      repeat split; try reflexivity; try lia.
      destruct (target <? last_start + acycle) eqn:E3; bool_to_prop;
        f_equal; lia.
    + right; right. bool_to_prop. repeat split; try lia. exact H.
Qed.

(** The two branches on the recorded side return when the projected start
    [last_start + acycle] is a date. *)
Lemma classify_recorded_returns (R : Result) :
  target <= last_end \/ target < last_start ->
  Z.abs acycle <= PyDate.MAX_DELTA_DAYS ->
  0 < last_start + acycle <= PyDate.MAXORDINAL ->
  exists r, classify last_start last_end acycle menses_duration target R = Ok r.
Proof.
  intros Hside H1 H2. unfold classify.
  rewrite (timedelta_returns _ H1). cbn [bind].
  rewrite (date_add_returns _ _ H2). cbn [bind].
  destruct (target <? last_start) eqn:E1; [eexists; reflexivity|].
  destruct (target <=? last_end) eqn:E2; [eexists; reflexivity|].
  bool_to_prop. lia.
Qed.

End Classification.

(** ** Claims about the averages *)

Lemma local_avg_cycle_gaps (periods s : list period) (avg_cycle0 : Z) :
  (2 <= length periods)%nat ->
  Permutation s periods -> spec_sorted_desc s ->
  local_avg_cycle periods avg_cycle0
    = py_rounded_mean (spec_consecutive_gaps (map start s)).
Proof.
  intros Hlen HP Hs. unfold local_avg_cycle, py_rounded_mean.
  rewrite <- (sorted_starts_unique s periods HP Hs).
  rewrite length_map, (Permutation_length HP).
  assert ((1 <? length periods)%nat = true) as -> by (apply Nat.ltb_lt; lia).
  rewrite total_cycle_length_gaps, spec_consecutive_gaps_length.
  now rewrite length_map, (Permutation_length HP).
Qed.

Lemma local_avg_cycle_single (periods : list period) (avg_cycle0 : Z) :
  length periods = 1%nat -> local_avg_cycle periods avg_cycle0 = avg_cycle0.
Proof.
  intros Hlen. unfold local_avg_cycle.
  now rewrite length_map, sorted_desc_length, Hlen.
Qed.

Lemma menses_average_mean (periods : list period) :
  menses_average periods
    = py_rounded_mean (map (fun p => (end_ p - start p) + 1) periods).
Proof.
  unfold menses_average, py_rounded_mean, total_period_length.
  now rewrite length_map.
Qed.

(** What a returned dictionary says about the averages. *)
Lemma returned_averages (periods : list period) (avg_cycle0 target : Z)
    (st st' : session_state) (r : Result) :
  periods <> [] ->
  calculate_predictions periods avg_cycle0 target st = (Ok r, st') ->
  avg_cycle r = local_avg_cycle periods avg_cycle0
  /\ avg_period_length r = menses_average periods.
Proof.
  intros Hne Hcall.
  destruct (sorted_desc_nonempty periods Hne) as [last Hlast].
  destruct (calculate_predictions_nonempty periods avg_cycle0 target st last Hlast)
    as (R & st1 & E & Hc & Hm & _).
  rewrite E in Hcall. injection Hcall as Hcl _.
  apply classify_ok in Hcl.
  destruct Hcl as [(_ & _ & _ & _ & H1 & H2)
                  |[(_ & _ & _ & _ & H1 & H2) | (_ & _ & Hp)]].
  - now rewrite H1, H2.
  - now rewrite H1, H2.
  - apply classify_projected_ok in Hp.
    destruct Hp as (_ & _ & H1 & H2 & _). now rewrite H1, H2.
Qed.

(** The left-to-right sum is the sum the code computes. *)
Lemma spec_sum_py_sum (l : list Z) : spec_sum l = py_sum l.
Proof.
  unfold spec_sum.
  assert (H : forall a, fold_left Z.add l a = a + py_sum l).
  { induction l as [|x l IH]; intros a; simpl; [lia|].
    rewrite IH. fold (py_sum l). lia. }
  rewrite H. lia.
Qed.

(** [round(p / q)] is an integer nearest to the quotient. *)
Lemma py_round_div_nearest_le (p q : Z) :
  0 < q -> 2 * Z.abs (py_round_div p q * q - p) <= q.
Proof.
  intros Hq.
  pose proof (Z.div_mod p q ltac:(lia)) as Hdm.
  pose proof (Z.mod_pos_bound p q Hq) as Hb.
  unfold py_round_div.
  destruct (2 * (p mod q) <? q) eqn:E1; bool_to_prop; [nia|].
  destruct (q <? 2 * (p mod q)) eqn:E2; bool_to_prop; [nia|].
  destruct (Z.even (p / q)); nia.
Qed.

(** What the code computes for a list with an entry is an integer-rounded
    mean of the list. *)
Lemma py_rounded_mean_is_rounded_mean (l : list Z) :
  l <> [] -> spec_integer_rounded_mean l (py_rounded_mean l).
Proof.
  intros Hne. split; [exact Hne|].
  rewrite spec_sum_py_sum. unfold py_rounded_mean.
  apply py_round_div_nearest_le.
  destruct l; [congruence | simpl length; lia].
Qed.

(** C1.  For a history with at least one record, step 1 of
    [calculate_predictions] leaves in the dictionary: as [avg_cycle], the
    integer-rounded mean of the gaps between the consecutive start dates of
    the history sorted by start descending when there are two records or more
    (no integer is nearer to the exact mean of the gaps), and the average the
    caller passed when there is exactly one; as [avg_period_length], the
    integer-rounded mean of [(end - start) + 1] over all records.  Neither
    depends on the order in which the records are given, and a dictionary the
    call returns carries both values.  (Distinct start dates and
    [end >= start] are not needed for any of this.) *)
Theorem C1_statistics_step (periods : list period) (avg_cycle0 : Z)
    (R : Result) (st : session_state) :
  periods <> [] ->
  avg_cycle R = avg_cycle0 ->
  let stats (l : list period) :=
    snd (fst (update_averages l (sorted_desc l) avg_cycle0 R st)) in
  ((2 <= length periods)%nat ->
   forall s, Permutation s periods -> spec_sorted_desc s ->
     spec_integer_rounded_mean (spec_consecutive_gaps (map start s))
       (avg_cycle (stats periods)))
  /\ (length periods = 1%nat -> avg_cycle (stats periods) = avg_cycle0)
  /\ spec_integer_rounded_mean
       (map (fun p => (end_ p - start p) + 1) periods)
       (avg_period_length (stats periods))
  /\ (forall periods', Permutation periods periods' ->
        avg_cycle (stats periods') = avg_cycle (stats periods)
        /\ avg_period_length (stats periods')
             = avg_period_length (stats periods))
  /\ (forall target r st',
        calculate_predictions periods avg_cycle0 target st = (Ok r, st') ->
        avg_cycle r = avg_cycle (stats periods)
        /\ avg_period_length r = avg_period_length (stats periods)).
Proof.
  intros Hne HR stats.
  assert (Hstats : forall l, l <> [] ->
            avg_cycle (stats l) = local_avg_cycle l avg_cycle0
            /\ avg_period_length (stats l) = menses_average l).
  { intros l Hl. subst stats. cbv beta.
    destruct (update_averages_spec l avg_cycle0 R st Hl)
      as (r' & st' & E & Hc & Hm & _).
    rewrite E. cbn [fst snd]. split; [|exact Hm].
    rewrite Hc, HR. unfold local_avg_cycle.
    rewrite length_map, sorted_desc_length.
    destruct (1 <? length l)%nat; reflexivity. }
  destruct (Hstats periods Hne) as [Hc Hm].
  split; [|split; [|split; [|split]]].
  - intros Hlen s HP Hs. rewrite Hc.
    rewrite (local_avg_cycle_gaps periods s avg_cycle0 Hlen HP Hs).
    apply py_rounded_mean_is_rounded_mean.
    intros E. apply (f_equal (@length Z)) in E.
    rewrite spec_consecutive_gaps_length, length_map, (Permutation_length HP) in E.
    simpl in E. lia.
  - intros Hlen. rewrite Hc. now apply local_avg_cycle_single.
  - rewrite Hm, menses_average_mean.
    apply py_rounded_mean_is_rounded_mean.
    destruct periods; [congruence | discriminate].
  - intros periods' HP.
    assert (periods' <> []) as Hne'.
    { intros ->. symmetry in HP. apply Permutation_nil in HP. contradiction. }
    destruct (Hstats periods' Hne') as [Hc' Hm'].
    rewrite Hc, Hm, Hc', Hm'. split.
    + symmetry. now apply local_avg_cycle_perm.
    + symmetry. now apply menses_average_perm.
  - intros target r st' Hcall. rewrite Hc, Hm.
    eapply returned_averages; eassumption.
Qed.

Lemma C1_statistics_step_witness :
  history3 <> []
  /\ avg_cycle (default_result 30 0 (initial_session 0)) = 30
  /\ spec_integer_rounded_mean
       (map (fun p => (end_ p - start p) + 1) history3)
       (avg_period_length
          (snd (fst (update_averages history3 (sorted_desc history3) 30
                       (default_result 30 0 (initial_session 0))
                       (initial_session 0))))).
Proof.
  assert (H1 : history3 <> []) by discriminate.
  assert (H2 : avg_cycle (default_result 30 0 (initial_session 0)) = 30)
    by reflexivity.
  split; [exact H1 | split; [exact H2|]].
  exact (proj1 (proj2 (proj2
    (C1_statistics_step history3 30 (default_result 30 0 (initial_session 0))
       (initial_session 0) H1 H2)))).
Defined.

(** On an exact half, [round] takes the even neighbour. *)
Lemma py_round_div_half (p q k : Z) :
  0 < q -> 2 * p = (2 * k + 1) * q ->
  py_round_div p q = if Z.even k then k else k + 1.
Proof.
  intros Hq Hp.
  destruct (Z.Even_or_Odd q) as [[h ->]|[h ->]]; [|lia].
  assert (Hdiv : p / (2 * h) = k)
    by (symmetry; apply (Z.div_unique_pos p (2 * h) k h); lia).
  assert (Hmod : p mod (2 * h) = h)
    by (symmetry; apply (Z.mod_unique_pos p (2 * h) k h); lia).
  unfold py_round_div. rewrite Hdiv, Hmod.
  rewrite Z.ltb_irrefl. reflexivity.
Qed.

(** Off the halves, [round] is the nearest integer. *)
Lemma py_round_div_nearest (p q : Z) :
  0 < q -> 2 * p mod (2 * q) <> q ->
  2 * Z.abs (py_round_div p q * q - p) < q.
Proof.
  intros Hq Hne.
  pose proof (Z.div_mod p q ltac:(lia)) as Hdm.
  pose proof (Z.mod_pos_bound p q Hq) as Hb.
  assert (2 * (p mod q) <> q) as Hne'.
  { intros Heq. apply Hne.
    symmetry. apply (Z.mod_unique_pos (2 * p) (2 * q) (p / q) q); lia. }
  unfold py_round_div.
  destruct (2 * (p mod q) <? q) eqn:E1; bool_to_prop; [nia|].
  destruct (q <? 2 * (p mod q)) eqn:E2; bool_to_prop; [nia|]. lia.
Qed.

(** C7 (as the code has it).  When the mean of the gaps between consecutive
    start dates is exactly [k + 1/2], [avg_cycle] is the even one of [k] and
    [k + 1]: a tie goes to the even neighbour, so 28.5 gives 28 and 29.5
    gives 30.  The same holds for [avg_period_length] and the mean of
    [(end - start) + 1]. *)
Theorem C7_ties_to_even (periods : list period) (avg_cycle0 k : Z)
    (R : Result) (st : session_state) :
  let stats := snd (fst (update_averages periods (sorted_desc periods)
                           avg_cycle0 R st)) in
  let gaps := spec_consecutive_gaps (map start (sorted_desc periods)) in
  let lengths := map (fun p => (end_ p - start p) + 1) periods in
  ((2 <= length periods)%nat ->
   2 * py_sum gaps = (2 * k + 1) * Z.of_nat (length gaps) ->
   avg_cycle stats = if Z.even k then k else k + 1)
  /\ (periods <> [] ->
      2 * py_sum lengths = (2 * k + 1) * Z.of_nat (length lengths) ->
      avg_period_length stats = if Z.even k then k else k + 1).
Proof.
  intros stats gaps lengths. split.
  - intros Hlen Htie.
    assert (Hne : periods <> []) by (destruct periods; [simpl in Hlen; lia | discriminate]).
    destruct (update_averages_spec periods avg_cycle0 R st Hne)
      as (r' & st' & E & Hc & _).
    subst stats. rewrite E. cbn [fst snd]. rewrite Hc.
    assert ((1 <? length periods)%nat = true) as -> by (apply Nat.ltb_lt; lia).
    rewrite (local_avg_cycle_gaps periods (sorted_desc periods) avg_cycle0 Hlen
               (sorted_desc_perm periods) (sorted_desc_sorted periods)).
    unfold py_rounded_mean. apply py_round_div_half; [|exact Htie].
    subst gaps. rewrite spec_consecutive_gaps_length, length_map, sorted_desc_length.
    lia.
  - intros Hne Htie.
    destruct (update_averages_spec periods avg_cycle0 R st Hne)
      as (r' & st' & E & _ & Hm & _).
    subst stats. rewrite E. cbn [fst snd]. rewrite Hm, menses_average_mean.
    unfold py_rounded_mean. apply py_round_div_half; [|exact Htie].
    subst lengths. rewrite length_map.
    destruct periods; [congruence | simpl length; lia].
Qed.

Lemma C7_ties_to_even_witness :
  avg_cycle (snd (fst (update_averages history3 (sorted_desc history3) 28
                         (default_result 28 0 (initial_session 0))
                         (initial_session 0)))) = 28
  /\ avg_period_length
       (snd (fst (update_averages history2 (sorted_desc history2) 28
                    (default_result 28 0 (initial_session 0))
                    (initial_session 0)))) = 4.
Proof.
  split.
  - apply (proj1 (C7_ties_to_even history3 28 28
                    (default_result 28 0 (initial_session 0)) (initial_session 0))).
    + simpl. lia.
    + vm_compute. reflexivity.
  - apply (proj2 (C7_ties_to_even history2 28 4
                    (default_result 28 0 (initial_session 0)) (initial_session 0))).
    + discriminate.
    + vm_compute. reflexivity.
Defined.

(** C7, the claim as written, fails: the gaps of [history3] are 28 and 29
    days, their mean is 28.5, and the call returns 28 where the claim has 29;
    the periods of [history2] last 4 and 5 days, their mean is 4.5, and the
    call returns 4 where the claim has 5. *)
Lemma C7_counterexample :
  let gaps := spec_consecutive_gaps (map start (sorted_desc history3)) in
  let lengths := map (fun p => (end_ p - start p) + 1) history2 in
  let today := PyDate.ymd2ord 2024 3 10 in
  2 * py_sum gaps = 57 * Z.of_nat (length gaps)
  /\ returned avg_cycle
       (calculate_predictions history3 28 today (initial_session today))
     = Some 28
  /\ 2 * py_sum lengths = 9 * Z.of_nat (length lengths)
  /\ returned avg_period_length
       (calculate_predictions history2 28 today (initial_session today))
     = Some 4.
Proof. vm_compute. repeat split. Qed.

(** ** Claims about the classification *)

(** C2 (as the code has it).  For the one-record history 2024-01-01 to
    2024-01-05 and an average cycle of 28 days (the average period length
    comes out as 5), the target 2024-01-10 is day 10 of the cycle, 19 days
    before the next projected period, and its stage is the fertile window:
    the window is the six days that end 14 days before the next projected
    start, 2024-01-10 to 2024-01-15. *)
Theorem C2_example_day10 (st : session_state) :
  let call := calculate_predictions history1 28 (PyDate.ymd2ord 2024 1 10) st in
  phase_of call = Some FERTILE
  /\ returned current_stage call = Some (StageFertile 10)
  /\ returned day_since_start call = Some 10
  /\ returned days_to_next_period call = Some (Some 19)
  /\ returned avg_cycle call = Some 28
  /\ returned avg_period_length call = Some 5.
Proof. destruct st. vm_compute. repeat split. Qed.

(** C2, the claim as written, fails: the stage of 2024-01-10 is not the
    follicular one. *)
Lemma C2_counterexample :
  phase_of (calculate_predictions history1 28 (PyDate.ymd2ord 2024 1 10)
              (mkSession history1 28 5 (PyDate.ymd2ord 2024 1 10)))
  <> Some FOLLICULAR.
Proof. vm_compute. discriminate. Qed.

(** C3 (as the code has it).  For the same history and averages, the target
    2024-01-29, 28 days after the recorded start, opens the next projected
    cycle: the stage is the projected period, on cycle day 1, and the next
    projected start has moved on to 2024-02-26, 28 days ahead. *)
Theorem C3_example_next_start (st : session_state) :
  let target := PyDate.ymd2ord 2024 1 29 in
  let call := calculate_predictions history1 28 target st in
  target = start (hd (mkPeriod 0 0) history1) + 28
  /\ phase_of call = Some MENSES
  /\ returned current_stage call = Some (StageMensesProjected 1)
  /\ returned next_period_start call = Some (Some (PyDate.ymd2ord 2024 2 26))
  /\ returned days_to_next_period call = Some (Some 28).
Proof. destruct st. vm_compute. repeat split. Qed.

(** C3, the claim as written, fails: on 2024-01-29 the stage is not the
    delayed one and the days to the next period are not 0. *)
Lemma C3_counterexample :
  let call := calculate_predictions history1 28 (PyDate.ymd2ord 2024 1 29)
                (mkSession history1 28 5 (PyDate.ymd2ord 2024 1 29)) in
  phase_of call <> Some DELAYED
  /\ returned days_to_next_period call <> Some (Some 0).
Proof. vm_compute. split; discriminate. Qed.

(** A target on or after the latest start lies in the projected cycle the
    code places it in. *)
Lemma projected_window (last_start acycle target : Z) :
  0 < acycle ->
  let pcs := last_start + (target - last_start) / acycle * acycle in
  pcs <= target < pcs + acycle
  /\ target - pcs = (target - last_start) mod acycle.
Proof.
  intros Ha pcs. subst pcs.
  pose proof (Z.div_mod (target - last_start) acycle ltac:(lia)).
  pose proof (Z.mod_pos_bound (target - last_start) acycle Ha).
  lia.
Qed.

(** A returning call on a history with a record went through [classify]. *)
Lemma returned_classify (periods : list period) (avg_cycle0 target : Z)
    (st st' : session_state) (r : Result) (last : period) :
  hd_error (sorted_desc periods) = Some last ->
  calculate_predictions periods avg_cycle0 target st = (Ok r, st') ->
  exists R,
    classify (start last) (end_ last) (local_avg_cycle periods avg_cycle0)
      (menses_average periods) target R = Ok r
    /\ avg_cycle R = local_avg_cycle periods avg_cycle0.
Proof.
  intros Hlast Hcall.
  destruct (calculate_predictions_nonempty periods avg_cycle0 target st last Hlast)
    as (R & st1 & E & Hc & _).
  rewrite E in Hcall. injection Hcall as Hcl _. now exists R.
Qed.

(** C4.  With an average cycle of at least one day, no call returns the
    delayed stage: for a target after the end of the latest record, the
    projected cycle start is at most the target and the next projected start,
    one average cycle later, is after it, so the check
    [target_date >= projected_next_period_start] never succeeds. *)
Theorem C4_never_delayed (periods : list period) (avg_cycle0 target : Z)
    (st st' : session_state) (r : Result) :
  calculate_predictions periods avg_cycle0 target st = (Ok r, st') ->
  1 <= avg_cycle r ->
  clean_stage (current_stage r) <> DELAYED
  /\ (forall last,
        hd_error (sorted_desc periods) = Some last ->
        start last <= end_ last -> end_ last < target ->
        exists pnps,
          next_period_start r = Some pnps
          /\ pnps - avg_cycle r <= target < pnps).
Proof.
  intros Hcall Hpos.
  destruct periods as [|first rest] eqn:Ep.
  { injection Hcall as <- _. split; [discriminate|]. intros last Hl. discriminate. }
  rewrite <- Ep in *.
  assert (Hne : periods <> []) by (rewrite Ep; discriminate).
  destruct (sorted_desc_nonempty periods Hne) as [last Hlast].
  destruct (returned_classify _ _ _ _ _ _ _ Hlast Hcall) as (R & Hcl & HR).
  apply classify_ok in Hcl.
  destruct Hcl as [(Hlt & Hs & _)|[(Hin & Hs & _)|(Hge & Hgt & Hp)]].
  - split; [rewrite Hs; discriminate|].
    intros last' Hl' Hinv Hafter. rewrite Hlast in Hl'. injection Hl' as <-. lia.
  - split; [rewrite Hs; discriminate|].
    intros last' Hl' Hinv Hafter. rewrite Hlast in Hl'. injection Hl' as <-. lia.
  - apply classify_projected_ok in Hp. cbv zeta in Hp.
    destruct Hp as (_ & Hn & Hc & _ & _ & _ & Hst).
    cbn [avg_cycle set_day_since_start] in Hc. rewrite HR in Hc.
    replace (target - start last + 1 - 1) with (target - start last) in * by lia.
    rewrite Hc in Hpos.
    destruct (projected_window (start last) (local_avg_cycle periods avg_cycle0)
                target ltac:(lia)) as [Hw _].
    split.
    + destruct Hst as [(Hs & _)|[(Hs & _ & _ & Hd)|[(Hs & _)|[(Hs & _)|(Hs & _)]]]];
        rewrite Hs; try discriminate. lia.
    + intros last' Hl' _ _. rewrite Hlast in Hl'. injection Hl' as <-.
      eexists. split; [exact Hn|]. rewrite Hc. lia.
Qed.

Lemma C4_never_delayed_witness :
  let target := PyDate.ymd2ord 2024 3 1 in
  let r := mkResult (Some 738886) (Some 738970) 28 5 (StageMensesProjected 5)
             DetailProjectedMenses 61 (Some 738890) target (Some 24) in
  clean_stage (current_stage r) <> DELAYED.
Proof.
  intros target r.
  refine (proj1 (C4_never_delayed history1 28 target (initial_session target)
                   (set_ss_avg_period_length (initial_session target) 5) r _ _)).
  - vm_compute. reflexivity.
  - simpl. lia.
Defined.

(** C8.  For a target after the end of the latest record and an average
    cycle of at least one day, the day number in the label of a returned
    stage is [((day_in_entire_history - 1) mod avg_cycle) + 1] and lies
    between 1 and the average cycle; and the call does return when the dates
    it builds stay in the calendar: the history starts on 0001-01-19 or
    later, the average period length is at least one day, and neither average
    added to the target passes 9999-12-31. *)
Theorem C8_cycle_day_in_range (periods : list period) (avg_cycle0 target : Z)
    (st : session_state) (last : period) :
  hd_error (sorted_desc periods) = Some last ->
  start last <= end_ last -> end_ last < target ->
  let acycle := local_avg_cycle periods avg_cycle0 in
  let day_in_entire_history := target - start last + 1 in
  1 <= acycle ->
  (forall r st',
     calculate_predictions periods avg_cycle0 target st = (Ok r, st') ->
     avg_cycle r = acycle
     /\ stage_day (current_stage r)
          = Some ((day_in_entire_history - 1) mod acycle + 1)
     /\ 1 <= (day_in_entire_history - 1) mod acycle + 1 <= acycle)
  /\ (19 <= start last ->
      1 <= menses_average periods ->
      target + acycle <= PyDate.MAXORDINAL ->
      target + menses_average periods <= PyDate.MAXORDINAL ->
      exists r st',
        calculate_predictions periods avg_cycle0 target st = (Ok r, st')).
Proof.
  intros Hlast Hinv Hafter acycle d Hpos. split.
  - intros r st' Hcall.
    destruct (returned_classify _ _ _ _ _ _ _ Hlast Hcall) as (R & Hcl & HR).
    apply classify_ok in Hcl.
    destruct Hcl as [(Hlt & _)|[(Hin & _)|(_ & _ & Hp)]]; try lia.
    apply classify_projected_ok in Hp. cbv zeta in Hp.
    destruct Hp as (_ & _ & Hc & _ & _ & Hday & _).
    cbn [avg_cycle set_day_since_start] in Hc.
    split; [now rewrite Hc, HR|]. split; [exact Hday|].
    pose proof (Z.mod_pos_bound (d - 1) acycle ltac:(lia)). lia.
  - intros Hls Hm Hca Hcm.
    destruct (calculate_predictions_nonempty periods avg_cycle0 target st last Hlast)
      as (R & st1 & E & _).
    rewrite E. unfold classify, PyDate.days_between.
    assert ((target <? start last) = false) as -> by (apply Z.ltb_ge; lia).
    assert ((target <=? end_ last) = false) as -> by (apply Z.leb_gt; lia).
    fold acycle.
    destruct (projected_window (start last) acycle target ltac:(lia)) as [Hw _].
    cbv zeta in Hw.
    assert (Hq : 0 <= (target - start last) / acycle * acycle)
      by (apply Z.mul_nonneg_nonneg; [apply Z.div_pos|]; lia).
    assert (Hr : exists r,
               classify_projected (start last) acycle (menses_average periods)
                 target (target - start last + 1)
                 (set_day_since_start R (target - start last + 1)) = Ok r).
    { apply classify_projected_returns;
        replace (target - start last + 1 - 1) with (target - start last) by lia;
        unfold PyDate.MAX_DELTA_DAYS, PyDate.MAXORDINAL in *; lia. }
    destruct Hr as [r Hr]. rewrite Hr. now exists r, st1.
Qed.

Lemma C8_cycle_day_in_range_witness :
  let target := PyDate.ymd2ord 2024 3 1 in
  let last := mkPeriod (PyDate.ymd2ord 2024 1 1) (PyDate.ymd2ord 2024 1 5) in
  exists r st',
    calculate_predictions history1 28 target (initial_session target) = (Ok r, st').
Proof.
  intros target last.
  refine (proj2 (C8_cycle_day_in_range history1 28 target (initial_session target)
                   last _ _ _ _) _ _ _ _).
  - reflexivity.
  - vm_compute. discriminate.
  - vm_compute. reflexivity.
  - vm_compute. discriminate.
  - vm_compute. discriminate.
  - vm_compute. discriminate.
  - vm_compute. discriminate.
  - vm_compute. discriminate.
Defined.

(** C5 (as the code has it).  Take two targets after the end of the latest
    record that the code places in the same projected cycle, the second not
    before the first.  The stages returned for them are among the projected
    period, the follicular, the fertile and the luteal stage, never the
    delayed one, and the second is not earlier in that order than the first:
    within a projected cycle the stages run period, follicular, fertile,
    luteal, the period only at its start.  On the first day of a projected
    cycle, in particular on the day that was the next projected start the
    day before, the stage is the projected period (for an average period
    length of at least one day) and the next projected start is a full
    average cycle ahead. *)
Theorem C5_order_within_cycle (periods : list period) (avg_cycle0 t1 t2 : Z)
    (st1 st2 st1' st2' : session_state) (r1 r2 : Result) (last : period) :
  hd_error (sorted_desc periods) = Some last ->
  start last <= end_ last ->
  let acycle := local_avg_cycle periods avg_cycle0 in
  1 <= acycle ->
  end_ last < t1 -> t1 <= t2 ->
  (t1 - start last) / acycle = (t2 - start last) / acycle ->
  calculate_predictions periods avg_cycle0 t1 st1 = (Ok r1, st1') ->
  calculate_predictions periods avg_cycle0 t2 st2 = (Ok r2, st2') ->
  let p1 := clean_stage (current_stage r1) in
  let p2 := clean_stage (current_stage r2) in
  0 <= spec_phase_order p1 <= spec_phase_order p2
  /\ spec_phase_order p2 <= spec_phase_order LUTEAL
  /\ ((t2 - start last) mod acycle = 0 ->
      1 <= menses_average periods ->
      p2 = MENSES /\ days_to_next_period r2 = Some acycle).
Proof.
  intros Hlast Hinv acycle Hpos Hafter Hle Hq Hc1 Hc2 p1 p2.
  destruct (returned_classify _ _ _ _ _ _ _ Hlast Hc1) as (R1 & Hcl1 & _).
  destruct (returned_classify _ _ _ _ _ _ _ Hlast Hc2) as (R2 & Hcl2 & _).
  apply classify_ok in Hcl1, Hcl2.
  destruct Hcl1 as [(? & _)|[(? & _)|(_ & _ & Hp1)]]; try lia.
  destruct Hcl2 as [(? & _)|[(? & _)|(_ & _ & Hp2)]]; try lia.
  apply classify_projected_ok in Hp1, Hp2. cbv zeta in Hp1, Hp2.
  destruct Hp1 as (_ & _ & _ & _ & _ & _ & Hs1).
  destruct Hp2 as (_ & _ & _ & _ & _ & _ & Hs2).
  fold acycle in Hs1, Hs2.
  replace (t1 - start last + 1 - 1) with (t1 - start last) in Hs1 by lia.
  replace (t2 - start last + 1 - 1) with (t2 - start last) in Hs2 by lia.
  destruct (projected_window (start last) acycle t1 ltac:(lia)) as [Hw1 _].
  destruct (projected_window (start last) acycle t2 ltac:(lia)) as [Hw2 Hm2].
  cbv zeta in Hw1, Hw2, Hm2.
  rewrite Hq in Hs1, Hw1.
  set (pcs := start last + (t2 - start last) / acycle * acycle) in *.
  subst p1 p2.
  destruct Hs1 as [(E1 & _ & ?)|[(E1 & _ & ? & ?)|[(E1 & _ & ? & ?)
                  |[(E1 & _ & ? & ? & ?)|(E1 & _ & ? & ? & ?)]]]];
    destruct Hs2 as [(E2 & D2 & ?)|[(E2 & D2 & ? & ?)|[(E2 & D2 & ? & ?)
                    |[(E2 & D2 & ? & ? & ?)|(E2 & D2 & ? & ? & ?)]]]];
    rewrite E1, E2; cbn [clean_stage spec_phase_order];
    try lia;
    (split; [lia|]; split; [lia|]; intros Hz Hm;
     first [ lia | split; [reflexivity | rewrite D2; f_equal; lia] ]).
Qed.

Lemma C5_order_within_cycle_witness :
  0 <= spec_phase_order FOLLICULAR <= spec_phase_order LUTEAL.
Proof.
  refine (proj1 (C5_order_within_cycle history1 28
    (PyDate.ymd2ord 2024 1 9) (PyDate.ymd2ord 2024 1 20)
    (initial_session 0) (initial_session 0) (initial_session 0) (initial_session 0)
    (mkResult (Some 738886) (Some 738914) 28 5 (StageFollicular 9)
       (DetailFollicular 9 1) 9 (Some 738890) 738894 (Some 20))
    (mkResult (Some 738886) (Some 738914) 28 5 (StageLuteal 20)
       (DetailLuteal 20 9) 20 (Some 738890) 738905 (Some 9))
    (mkPeriod (PyDate.ymd2ord 2024 1 1) (PyDate.ymd2ord 2024 1 5))
    _ _ _ _ _ _ _ _)).
  - reflexivity.
  - vm_compute. discriminate.
  - vm_compute. discriminate.
  - vm_compute. reflexivity.
  - vm_compute. discriminate.
  - vm_compute. reflexivity.
  - vm_compute. reflexivity.
  - vm_compute. reflexivity.
Defined.

(** C5, the claim as written, fails: with the one-record history and a
    28-day cycle, 2024-01-28 is inside the range from [last.end + 1] to the
    next projected start 2024-01-29; its stage is the luteal one, and the
    stage of the next day, the projected start itself, is the period again,
    not the delayed stage, which is a step backwards in the order claimed. *)
Lemma C5_counterexample :
  let st := mkSession history1 28 5 (PyDate.ymd2ord 2024 1 28) in
  let last := hd (mkPeriod 0 0) (sorted_desc history1) in
  let t := PyDate.ymd2ord 2024 1 28 in
  end_ last + 1 <= t
  /\ t + 1 = start last + 28
  /\ phase_of (calculate_predictions history1 28 t st) = Some LUTEAL
  /\ phase_of (calculate_predictions history1 28 (t + 1) st) = Some MENSES
  /\ phase_of (calculate_predictions history1 28 (t + 1) st) <> Some DELAYED
  /\ spec_phase_order MENSES < spec_phase_order LUTEAL.
Proof. vm_compute. repeat split; discriminate. Qed.

(** C6.  Let [gap] be the days from the target to [last.start + avg_cycle].
    A call that returns for a target inside the latest recorded period has
    the recorded-period stage and [days_to_next_period] equal to [gap] clamped
    at zero, never [None]; a call that returns for a target before the latest
    start has the historical stage and [days_to_next_period] equal to [gap]
    when that is positive and [None] otherwise.  On both sides the call does
    return as soon as [last.start + avg_cycle] is a date of the calendar. *)
Theorem C6_days_to_next_period (periods : list period) (avg_cycle0 target : Z)
    (st : session_state) (last : period) :
  hd_error (sorted_desc periods) = Some last ->
  let acycle := local_avg_cycle periods avg_cycle0 in
  let gap := PyDate.days_between (start last + acycle) target in
  (forall r st',
     calculate_predictions periods avg_cycle0 target st = (Ok r, st') ->
     avg_cycle r = acycle
     /\ (start last <= target <= end_ last ->
         clean_stage (current_stage r) = MENSES
         /\ days_to_next_period r = Some (Z.max gap 0))
     /\ (target < start last ->
         clean_stage (current_stage r) = HISTORICAL
         /\ days_to_next_period r = if 0 <? gap then Some gap else None))
  /\ (target <= end_ last \/ target < start last ->
      Z.abs acycle <= PyDate.MAX_DELTA_DAYS ->
      0 < start last + acycle <= PyDate.MAXORDINAL ->
      exists r st',
        calculate_predictions periods avg_cycle0 target st = (Ok r, st')).
Proof.
  intros Hlast acycle gap. split.
  - intros r st' Hcall.
    assert (Hne : periods <> []) by (intros ->; discriminate).
    split; [eapply returned_averages; eassumption|].
    destruct (returned_classify _ _ _ _ _ _ _ Hlast Hcall) as (R & Hcl & _).
    apply classify_ok in Hcl. cbv zeta in Hcl. fold acycle in Hcl.
    unfold gap, PyDate.days_between.
    destruct Hcl as [(Hlt & Hs & _ & Hd & _)|[(Hin & Hs & _ & Hd & _)|(? & ? & Hp)]].
    + split; [lia|]. intros _. now rewrite Hs, Hd.
    + split; [|lia]. intros _. now rewrite Hs, Hd.
    + split; lia.
  - intros Hside Hdelta Hdate.
    destruct (calculate_predictions_nonempty periods avg_cycle0 target st last Hlast)
      as (R & st1 & E & _).
    destruct (classify_recorded_returns (start last) (end_ last) acycle
                (menses_average periods) target R Hside Hdelta Hdate) as [r Hr].
    exists r, st1. rewrite E. fold acycle. now rewrite Hr.
Qed.

Lemma C6_days_to_next_period_witness :
  exists r st',
    calculate_predictions history1 28 (PyDate.ymd2ord 2024 1 3)
      (initial_session 0) = (Ok r, st').
Proof.
  refine (proj2 (C6_days_to_next_period history1 28 (PyDate.ymd2ord 2024 1 3)
                   (initial_session 0)
                   (mkPeriod (PyDate.ymd2ord 2024 1 1) (PyDate.ymd2ord 2024 1 5))
                   _) _ _ _).
  - reflexivity.
  - left. vm_compute. discriminate.
  - vm_compute. discriminate.
  - vm_compute. split; [reflexivity | discriminate].
Defined.

(** ** Claims about the session state *)

(** C9 (as the code has it).  On an empty history the call returns at once,
    with the no-record stage and with [avg_period_length] equal to whatever
    [st.session_state.avg_period_length] holds at that moment; that is the
    default 5 in a session in which no call has stored another value yet. *)
Theorem C9_empty_history (avg_cycle0 target : Z) (st : session_state) :
  let call := calculate_predictions [] avg_cycle0 target st in
  snd call = st
  /\ phase_of call = Some NO_DATA
  /\ returned avg_period_length call = Some (ss_avg_period_length st)
  /\ returned avg_cycle call = Some avg_cycle0
  /\ forall today,
       returned avg_period_length
         (calculate_predictions [] avg_cycle0 target (initial_session today))
       = Some 5.
Proof. cbn. repeat split. Qed.

(** C9, the claim as written, fails in a session the script can reach: a
    period of 7 days is saved, the page is computed, the period is deleted
    and the page is computed again; the history is then empty and the
    reported [avg_period_length] is 7, not 5. *)
Lemma C9_counterexample :
  let today := PyDate.ymd2ord 2024 1 20 in
  let st1 := save_period (PyDate.ymd2ord 2024 1 1) (PyDate.ymd2ord 2024 1 7)
               (initial_session today) in
  let st2 := snd (today_status today st1) in
  let st3 := delete_period (PyDate.ymd2ord 2024 1 1) st2 in
  ss_periods st3 = []
  /\ returned avg_period_length (today_status today st3) = Some 7
  /\ returned avg_period_length (today_status today st3) <> Some 5.
Proof. vm_compute. repeat split; discriminate. Qed.

(** C10 (as the code has it).  A call never touches the stored history or
    the stored query date, and on an empty history it leaves the whole
    session state as it was.  On a history with a record the call itself
    stores the new averages, whether it then returns or raises:
    [avg_period_length] always, [avg_cycle] when there are two records or
    more (with one record the stored [avg_cycle] stays). *)
Theorem C10_session_state_effect (periods : list period) (avg_cycle0 target : Z)
    (st : session_state) :
  let st' := snd (calculate_predictions periods avg_cycle0 target st) in
  ss_periods st' = ss_periods st
  /\ ss_query_date st' = ss_query_date st
  /\ (periods = [] -> st' = st)
  /\ (periods <> [] ->
      ss_avg_period_length st' = menses_average periods
      /\ ss_avg_cycle st'
           = if (1 <? length periods)%nat
             then local_avg_cycle periods avg_cycle0
             else ss_avg_cycle st).
Proof.
  intros st'. subst st'.
  destruct periods as [|first rest] eqn:Ep.
  - cbn. repeat split. congruence.
  - rewrite <- Ep.
    assert (Hne : periods <> []) by (rewrite Ep; discriminate).
    destruct (sorted_desc_nonempty periods Hne) as [last Hlast].
    destruct (calculate_predictions_nonempty periods avg_cycle0 target st last Hlast)
      as (R & st1 & E & _ & _ & Hsc & Hsm & Hp & Hq).
    rewrite E. cbn [snd]. repeat split; auto. congruence.
Qed.

Lemma C10_session_state_effect_witness :
  let st' := snd (calculate_predictions history30 28 (PyDate.ymd2ord 2024 2 10)
                    (initial_session 0)) in
  ss_avg_period_length st' = menses_average history30
  /\ ss_avg_cycle st' = local_avg_cycle history30 28.
Proof.
  refine (proj2 (proj2 (proj2
    (C10_session_state_effect history30 28 (PyDate.ymd2ord 2024 2 10)
       (initial_session 0)))) _).
  discriminate.
Defined.

(** C10, the claim as written, fails: a call on two periods of 4 days, 30
    days apart, in a session that stores the averages 28 and 5, ends with 30
    and 4 stored. *)
Lemma C10_counterexample :
  let today := PyDate.ymd2ord 2024 2 10 in
  let st := mkSession history30 28 5 today in
  let st' := snd (calculate_predictions history30 (ss_avg_cycle st) today st) in
  st' <> st
  /\ ss_avg_cycle st' = 30
  /\ ss_avg_period_length st' = 4.
Proof. vm_compute. repeat split. discriminate. Qed.

(** ** The call in closed form *)

(** On a history with a record the call is [classify] on a dictionary and in
    a session state that can be written out: neither depends on what the
    session stored as average period length, and the stored average cycle
    matters only for a history of one record. *)
Lemma calculate_predictions_explicit (periods : list period)
    (avg_cycle0 target : Z) (st : session_state) (last : period) :
  hd_error (sorted_desc periods) = Some last ->
  calculate_predictions periods avg_cycle0 target st
  = (classify (start last) (end_ last) (local_avg_cycle periods avg_cycle0)
       (menses_average periods) target
       (mkResult (Some (start last)) None (local_avg_cycle periods avg_cycle0)
          (menses_average periods) StageNoRecord DetailNoRecord 0
          (Some (end_ last)) target None),
     mkSession (ss_periods st)
       (if (1 <? length periods)%nat
        then local_avg_cycle periods avg_cycle0 else ss_avg_cycle st)
       (menses_average periods) (ss_query_date st)).
Proof.
  intros Hlast. unfold calculate_predictions.
  destruct periods as [|first rest] eqn:Ep; [discriminate|].
  rewrite <- Ep in *.
  assert (hd first (sorted_desc periods) = last) as ->
    by (destruct (sorted_desc periods); [discriminate | now injection Hlast]).
  unfold update_averages, local_avg_cycle, menses_average.
  rewrite length_map, sorted_desc_length.
  assert ((0 <? length periods)%nat = true) as ->
    by (rewrite Ep; reflexivity).
  destruct (1 <? length periods)%nat; reflexivity.
Qed.

(** A returning call on a history with a record, branch by branch, for an
    average cycle of at least one day.  After the latest recorded end the
    stage and the days to the next period are functions of the cycle day. *)
Lemma returned_cases (periods : list period) (avg_cycle0 target : Z)
    (st st' : session_state) (r : Result) (last : period) :
  hd_error (sorted_desc periods) = Some last ->
  1 <= local_avg_cycle periods avg_cycle0 ->
  calculate_predictions periods avg_cycle0 target st = (Ok r, st') ->
  let acycle := local_avg_cycle periods avg_cycle0 in
  let c := (target - start last) mod acycle + 1 in
  let days := acycle - c + 1 in
  (target < start last
   /\ current_stage r = StageHistorical
   /\ day_since_start r = target - start last + 1
   /\ next_period_start r = Some (start last + acycle)
   /\ days_to_next_period r = Some (start last + acycle - target))
  \/ (start last <= target <= end_ last
      /\ current_stage r = StageMensesRecorded (target - start last + 1)
      /\ day_since_start r = target - start last + 1
      /\ next_period_start r = Some (start last + acycle)
      /\ days_to_next_period r = Some (Z.max (start last + acycle - target) 0))
  \/ (start last <= target /\ end_ last < target
      /\ current_stage r
           = (if c <=? menses_average periods then StageMensesProjected c
              else if days <=? 13 then StageLuteal c
              else if days <=? 19 then StageFertile c
              else StageFollicular c)
      /\ day_since_start r = target - start last + 1
      /\ next_period_start r = Some (target + days)
      /\ days_to_next_period r = Some days
      /\ 1 <= c <= acycle).
Proof.
  intros Hlast Hpos Hcall acycle c days.
  rewrite (calculate_predictions_explicit _ _ _ _ _ Hlast) in Hcall.
  injection Hcall as Hcl _. fold acycle in Hcl.
  unfold classify, PyDate.days_between in Hcl.
  destruct (target <? start last) eqn:E1.
  - left. bind_inv Hcl. apply timedelta_ok in E as [-> _].
    bind_inv Hcl. apply date_add_ok in E as [-> _].
    injection Hcl as <-. cbn. bool_to_prop.
    assert ((target <? start last + acycle) = true) as ->
      by (apply Z.ltb_lt; lia).
    repeat split; lia.
  - destruct (target <=? end_ last) eqn:E2.
    + right; left. bind_inv Hcl. apply timedelta_ok in E as [-> _].
      bind_inv Hcl. apply date_add_ok in E as [-> _].
      injection Hcl as <-. cbn. bool_to_prop.
      repeat split; try lia.
      destruct (target <? start last + acycle) eqn:E3; bool_to_prop;
        f_equal; lia.
    + right; right. bool_to_prop.
      apply classify_projected_ok in Hcl. cbv zeta in Hcl.
      destruct Hcl as (_ & Hn & _ & _ & Hd & _ & Hst).
      cbn [day_since_start set_day_since_start] in Hd.
      replace (target - start last + 1 - 1) with (target - start last) in * by lia.
      destruct (projected_window (start last) acycle target ltac:(lia))
        as [Hw Hm]. cbv zeta in Hw, Hm.
      fold c in Hst. subst days c.
      set (pcs := start last + (target - start last) / acycle * acycle) in *.
      set (dur := menses_average periods) in *.
      pose proof (Z.mod_pos_bound (target - start last) acycle ltac:(lia)).
      rewrite Hn.
      split; [lia|]. split; [lia|].
      destruct Hst as [(E & D & ?)|[(E & D & ? & ?)|[(E & D & ? & ?)
                      |[(E & D & ? & ? & ?)|(E & D & ? & ? & ?)]]]];
        rewrite E, D;
        repeat match goal with
               | |- context [if ?b then _ else _] => destruct b eqn:?
               end;
        bool_to_prop; try lia;
        (split; [reflexivity|]); (split; [exact Hd|]);
        (split; [f_equal; lia|]); (split; [f_equal; lia|]); lia.
Qed.

(** ** Further properties of [calculate_predictions] *)

(** Records with distinct starts are determined by their starts. *)
Lemma same_starts_eq (l1 l2 : list period) :
  Permutation l1 l2 -> map start l1 = map start l2 ->
  NoDup (map start l1) -> l1 = l2.
Proof.
  revert l2. induction l1 as [|a l1 IH]; intros l2 HP Hm Hd.
  - apply Permutation_nil in HP. now subst.
  - destruct l2 as [|b l2]; [discriminate|].
    simpl in Hm. injection Hm as Hab Hm.
    inversion Hd as [|? ? Hn Hd']; subst.
    assert (a = b) as ->.
    { assert (In a (b :: l2)) as [->|Hin]
        by (eapply Permutation_in; [exact HP | now left]); [reflexivity|].
      exfalso. apply Hn. rewrite Hm. now apply in_map. }
    f_equal. apply IH; auto. now apply Permutation_cons_inv in HP.
Qed.

Lemma sorted_desc_perm_eq (l1 l2 : list period) :
  Permutation l1 l2 -> NoDup (map start l1) -> sorted_desc l1 = sorted_desc l2.
Proof.
  intros HP Hd. apply same_starts_eq.
  - rewrite !sorted_desc_perm. exact HP.
  - apply sorted_starts_unique; [|apply sorted_desc_sorted].
    rewrite sorted_desc_perm. exact HP.
  - eapply Permutation_NoDup; [|exact Hd].
    apply Permutation_map. symmetry. apply sorted_desc_perm.
Qed.

(** X1.  When no two records start on the same day, the order in which the
    records are stored does not matter: a call on any rearrangement of the
    history gives the same outcome and the same session state. *)
Theorem X1_record_order_irrelevant (periods periods' : list period)
    (avg_cycle0 target : Z) (st : session_state) :
  Permutation periods periods' ->
  NoDup (map start periods) ->
  calculate_predictions periods avg_cycle0 target st
  = calculate_predictions periods' avg_cycle0 target st.
Proof.
  intros HP Hd.
  destruct periods as [|first rest] eqn:Ep.
  { apply Permutation_nil in HP. now subst. }
  rewrite <- Ep in *.
  assert (Hne : periods <> []) by (rewrite Ep; discriminate).
  destruct (sorted_desc_nonempty periods Hne) as [last Hlast].
  pose proof Hlast as Hlast'.
  rewrite (sorted_desc_perm_eq _ _ HP Hd) in Hlast'.
  rewrite (calculate_predictions_explicit _ _ _ _ _ Hlast),
          (calculate_predictions_explicit _ _ _ _ _ Hlast').
  now rewrite (local_avg_cycle_perm _ _ avg_cycle0 HP),
              (menses_average_perm _ _ HP), (Permutation_length HP).
Qed.

Lemma X1_record_order_irrelevant_witness :
  calculate_predictions history3 28 (PyDate.ymd2ord 2024 3 20) (initial_session 0)
  = calculate_predictions (rev history3) 28 (PyDate.ymd2ord 2024 3 20)
      (initial_session 0).
Proof.
  apply X1_record_order_irrelevant.
  - apply Permutation_rev.
  - vm_compute. repeat constructor; simpl; intuition discriminate.
Defined.

(** The average cycle a call stores is the one a later call on the same
    history computes again when it is given the stored one. *)
Lemma local_avg_cycle_stable (periods : list period) (c : Z) :
  local_avg_cycle periods
    (if (1 <? length periods)%nat then local_avg_cycle periods c else c)
  = local_avg_cycle periods c.
Proof.
  unfold local_avg_cycle. rewrite length_map, sorted_desc_length.
  destruct (1 <? length periods)%nat; reflexivity.
Qed.

(** X2.  Running the page twice changes nothing: the today panel computed
    in the state its own first run has left is the same and leaves the same
    state, and the query panel, which the script computes after the today
    panel, returns what it would have returned before it and leaves the state
    the today panel left. *)
Theorem X2_rerun_is_stable (today query : Z) (st : session_state) :
  let st1 := snd (today_status today st) in
  today_status today st1 = today_status today st
  /\ query_status query st1 = (fst (query_status query st), st1)
  /\ snd (query_status query st) = st1.
Proof.
  intros st1. subst st1. unfold today_status, query_status.
  destruct (ss_periods st) as [|first rest] eqn:Ep.
  { cbn. rewrite Ep. cbn. repeat split. }
  rewrite <- Ep.
  assert (Hne : ss_periods st <> []) by (rewrite Ep; discriminate).
  destruct (sorted_desc_nonempty _ Hne) as [last Hlast].
  rewrite !(calculate_predictions_explicit _ _ _ _ _ Hlast).
  cbn [fst snd ss_periods ss_avg_cycle ss_query_date].
  rewrite !local_avg_cycle_stable.
  destruct (1 <? length (ss_periods st))%nat; repeat split.
Qed.

(** X3.  For a target after the end of the latest record and an average
    cycle of at least one day, a returned dictionary has
    [days_to_next_period = avg_cycle - (cycle day - 1)], a number between 1
    and the average cycle, and [next_period_start] is the target plus that
    many days. *)
Theorem X3_days_from_cycle_day (periods : list period) (avg_cycle0 target : Z)
    (st st' : session_state) (r : Result) (last : period) :
  hd_error (sorted_desc periods) = Some last ->
  start last <= end_ last -> end_ last < target ->
  1 <= local_avg_cycle periods avg_cycle0 ->
  calculate_predictions periods avg_cycle0 target st = (Ok r, st') ->
  exists c days,
    stage_day (current_stage r) = Some c
    /\ days = avg_cycle r - (c - 1)
    /\ days_to_next_period r = Some days
    /\ next_period_start r = Some (target + days)
    /\ 1 <= days <= avg_cycle r.
Proof.
  intros Hlast Hinv Hafter Hpos Hcall.
  assert (Hne : periods <> []) by (intros ->; discriminate).
  destruct (returned_averages periods avg_cycle0 target st st' r Hne Hcall)
    as [Ha _].
  destruct (returned_cases _ _ _ _ _ _ _ Hlast Hpos Hcall)
    as [(? & _)|[(? & _)|(_ & _ & Hs & _ & Hn & Hd & Hc)]]; try lia.
  cbv zeta in Hs, Hn, Hd, Hc. rewrite Ha.
  eexists. eexists. split; [|split; [reflexivity|]].
  - rewrite Hs.
    repeat match goal with
           | |- context [if ?b then _ else _] => destruct b
           end; reflexivity.
  - split; [rewrite Hd; f_equal; lia|].
    split; [rewrite Hn; do 2 f_equal; lia|]. lia.
Qed.

Lemma X3_days_from_cycle_day_witness :
  exists c days,
    stage_day (StageMensesProjected 5) = Some c
    /\ days = 28 - (c - 1)
    /\ Some 24 = Some days
    /\ Some 738970 = Some (PyDate.ymd2ord 2024 3 1 + days)
    /\ 1 <= days <= 28.
Proof.
  refine (X3_days_from_cycle_day history1 28 (PyDate.ymd2ord 2024 3 1)
    (initial_session 0) (set_ss_avg_period_length (initial_session 0) 5)
    (mkResult (Some 738886) (Some 738970) 28 5 (StageMensesProjected 5)
       DetailProjectedMenses 61 (Some 738890) (PyDate.ymd2ord 2024 3 1) (Some 24))
    (mkPeriod (PyDate.ymd2ord 2024 1 1) (PyDate.ymd2ord 2024 1 5)) _ _ _ _ _).
  - reflexivity.
  - vm_compute. discriminate.
  - vm_compute. reflexivity.
  - vm_compute. discriminate.
  - vm_compute. reflexivity.
Defined.

(** X4.  For a target after the end of the latest record and an average
    cycle of at least one day, the stage of a returned dictionary is decided
    by the cycle day and the two averages alone: the projected period while
    the cycle day is at most the average period length; after that the luteal
    stage when the next projected start is at most 13 days away, the fertile
    stage when it is 14 to 19 days away, the follicular stage when it is 20
    days away or more. *)
Theorem X4_stage_from_cycle_day (periods : list period) (avg_cycle0 target : Z)
    (st st' : session_state) (r : Result) (last : period) :
  hd_error (sorted_desc periods) = Some last ->
  start last <= end_ last -> end_ last < target ->
  1 <= local_avg_cycle periods avg_cycle0 ->
  calculate_predictions periods avg_cycle0 target st = (Ok r, st') ->
  let c := (target - start last) mod avg_cycle r + 1 in
  let days := avg_cycle r - c + 1 in
  current_stage r
  = if c <=? avg_period_length r then StageMensesProjected c
    else if days <=? 13 then StageLuteal c
    else if days <=? 19 then StageFertile c
    else StageFollicular c.
Proof.
  intros Hlast Hinv Hafter Hpos Hcall.
  assert (Hne : periods <> []) by (intros ->; discriminate).
  destruct (returned_averages periods avg_cycle0 target st st' r Hne Hcall)
    as [Ha Hm].
  destruct (returned_cases _ _ _ _ _ _ _ Hlast Hpos Hcall)
    as [(? & _)|[(? & _)|(_ & _ & Hs & _)]]; try lia.
  cbv zeta in Hs. rewrite Ha, Hm. exact Hs.
Qed.

Lemma X4_stage_from_cycle_day_witness :
  StageMensesProjected 5
  = if (PyDate.ymd2ord 2024 3 1 - PyDate.ymd2ord 2024 1 1) mod 28 + 1 <=? 5
    then StageMensesProjected
           ((PyDate.ymd2ord 2024 3 1 - PyDate.ymd2ord 2024 1 1) mod 28 + 1)
    else StageNoRecord.
Proof.
  refine (eq_trans
    (X4_stage_from_cycle_day history1 28 (PyDate.ymd2ord 2024 3 1)
      (initial_session 0) (set_ss_avg_period_length (initial_session 0) 5)
      (mkResult (Some 738886) (Some 738970) 28 5 (StageMensesProjected 5)
         DetailProjectedMenses 61 (Some 738890) (PyDate.ymd2ord 2024 3 1) (Some 24))
      (mkPeriod (PyDate.ymd2ord 2024 1 1) (PyDate.ymd2ord 2024 1 5)) _ _ _ _ _) _).
  - reflexivity.
  - vm_compute. discriminate.
  - vm_compute. reflexivity.
  - vm_compute. discriminate.
  - vm_compute. reflexivity.
  - vm_compute. reflexivity.
Defined.

(** X5.  The projection repeats with the average cycle: for a target after
    the end of the latest record and an average cycle of at least one day,
    the call for the target and the call for a date a whole number of average
    cycles later return the same stage label, cycle day included, and the same
    days to the next period; the next projected start moves by as many
    cycles. *)
Theorem X5_projection_periodic (periods : list period) (avg_cycle0 target k : Z)
    (st1 st2 st1' st2' : session_state) (r1 r2 : Result) (last : period) :
  hd_error (sorted_desc periods) = Some last ->
  start last <= end_ last -> end_ last < target ->
  let acycle := local_avg_cycle periods avg_cycle0 in
  1 <= acycle -> 0 <= k ->
  calculate_predictions periods avg_cycle0 target st1 = (Ok r1, st1') ->
  calculate_predictions periods avg_cycle0 (target + k * acycle) st2
    = (Ok r2, st2') ->
  current_stage r2 = current_stage r1
  /\ days_to_next_period r2 = days_to_next_period r1
  /\ next_period_start r2
       = option_map (fun d => d + k * acycle) (next_period_start r1).
Proof.
  intros Hlast Hinv Hafter acycle Hpos Hk Hc1 Hc2.
  assert (0 <= k * acycle) by (apply Z.mul_nonneg_nonneg; lia).
  destruct (returned_cases _ _ _ _ _ _ _ Hlast Hpos Hc1)
    as [(? & _)|[(? & _)|(_ & _ & Hs1 & _ & Hn1 & Hd1 & _)]]; try lia.
  destruct (returned_cases _ _ _ _ _ _ _ Hlast Hpos Hc2)
    as [(? & _)|[(? & _)|(_ & _ & Hs2 & _ & Hn2 & Hd2 & _)]]; try lia.
  cbv zeta in Hs1, Hn1, Hd1, Hs2, Hn2, Hd2. fold acycle in Hs1, Hn1, Hd1, Hs2, Hn2, Hd2.
  replace ((target + k * acycle - start last) mod acycle)
    with ((target - start last) mod acycle) in Hs2, Hn2, Hd2
    by (replace (target + k * acycle - start last)
          with (target - start last + k * acycle) by lia;
        symmetry; apply Z.mod_add; lia).
  rewrite Hs1, Hs2, Hd1, Hd2, Hn1, Hn2. cbn [option_map].
  repeat split. f_equal. lia.
Qed.

Lemma X5_projection_periodic_witness :
  StageFollicular 9 = StageFollicular 9
  /\ Some 20 = Some 20
  /\ Some 738970 = option_map (fun d => d + 2 * 28) (Some 738914).
Proof.
  refine (X5_projection_periodic history1 28 (PyDate.ymd2ord 2024 1 9) 2
    (initial_session 0) (initial_session 0)
    (set_ss_avg_period_length (initial_session 0) 5)
    (set_ss_avg_period_length (initial_session 0) 5)
    (mkResult (Some 738886) (Some 738914) 28 5 (StageFollicular 9)
       (DetailFollicular 9 1) 9 (Some 738890) 738894 (Some 20))
    (mkResult (Some 738886) (Some 738970) 28 5 (StageFollicular 9)
       (DetailFollicular 9 1) 65 (Some 738890) 738950 (Some 20))
    (mkPeriod (PyDate.ymd2ord 2024 1 1) (PyDate.ymd2ord 2024 1 5))
    _ _ _ _ _ _ _).
  - reflexivity.
  - vm_compute. discriminate.
  - vm_compute. reflexivity.
  - vm_compute. discriminate.
  - vm_compute. discriminate.
  - vm_compute. reflexivity.
  - vm_compute. reflexivity.
Defined.

(** Step 3 ends in a division by zero exactly when the average cycle is 0
    and the target is past the latest record. *)
Lemma classify_zero_division (ls le a dur t : Z) (R : Result) :
  classify ls le a dur t R = Raise ZeroDivisionError
  <-> a = 0 /\ ls <= t /\ le < t.
Proof.
  split.
  - intros H.
    cbv beta zeta delta [classify classify_projected py_mod py_floordiv
                         PyDate.date_sub PyDate.date_add PyDate.timedelta] in H.
    repeat match type of H with
           | context [if ?b then _ else _] =>
             destruct b eqn:?; cbn [bind] in H; try discriminate H
           end.
    bool_to_prop. lia.
  - intros (-> & H1 & H2). unfold classify.
    assert ((t <? ls) = false) as -> by (apply Z.ltb_ge; lia).
    assert ((t <=? le) = false) as -> by (apply Z.leb_gt; lia).
    reflexivity.
Qed.

(** X6.  A call on a history with a record raises [ZeroDivisionError]
    exactly when the average cycle in force is 0 (passed by the caller for a
    history of one record, or computed from records that all start on the same
    day) and the target is on or after the latest start and after the latest
    end; before or inside the latest recorded period an average of 0 does not
    raise it. *)
Theorem X6_zero_division (periods : list period) (avg_cycle0 target : Z)
    (st : session_state) (last : period) :
  hd_error (sorted_desc periods) = Some last ->
  fst (calculate_predictions periods avg_cycle0 target st)
    = Raise ZeroDivisionError
  <-> local_avg_cycle periods avg_cycle0 = 0
      /\ start last <= target /\ end_ last < target.
Proof.
  intros Hlast.
  rewrite (calculate_predictions_explicit _ _ _ _ _ Hlast). cbn [fst].
  apply classify_zero_division.
Qed.

Lemma X6_zero_division_witness :
  fst (calculate_predictions history1 0 (PyDate.ymd2ord 2024 1 10)
         (initial_session 0)) = Raise ZeroDivisionError.
Proof.
  apply (proj2 (X6_zero_division history1 0 (PyDate.ymd2ord 2024 1 10)
                  (initial_session 0)
                  (mkPeriod (PyDate.ymd2ord 2024 1 1) (PyDate.ymd2ord 2024 1 5))
                  eq_refl)).
  vm_compute. repeat split; discriminate.
Defined.

(** X7.  For a target inside the latest recorded period, a returned
    dictionary counts the days from the recorded start: the label and
    [day_since_start] both carry [target - start + 1], which is 1 on the start
    date itself and at most the length of the recorded period. *)
Theorem X7_recorded_day_number (periods : list period) (avg_cycle0 target : Z)
    (st st' : session_state) (r : Result) (last : period) :
  hd_error (sorted_desc periods) = Some last ->
  start last <= target <= end_ last ->
  calculate_predictions periods avg_cycle0 target st = (Ok r, st') ->
  let day := target - start last + 1 in
  current_stage r = StageMensesRecorded day
  /\ day_since_start r = day
  /\ 1 <= day <= end_ last - start last + 1
  /\ (target = start last -> day = 1)
  /\ last_period_date r = Some (start last)
  /\ last_period_end_date r = Some (end_ last).
Proof.
  intros Hlast Hin Hcall day.
  rewrite (calculate_predictions_explicit _ _ _ _ _ Hlast) in Hcall.
  injection Hcall as Hcl _.
  unfold classify, PyDate.days_between in Hcl.
  assert ((target <? start last) = false) as E1 by (apply Z.ltb_ge; lia).
  assert ((target <=? end_ last) = true) as E2 by (apply Z.leb_le; lia).
  rewrite E1, E2 in Hcl.
  bind_inv Hcl. bind_inv Hcl. injection Hcl as <-. cbn.
  subst day. repeat split; lia.
Qed.

Lemma X7_recorded_day_number_witness :
  let day := PyDate.ymd2ord 2024 1 3 - PyDate.ymd2ord 2024 1 1 + 1 in
  StageMensesRecorded 3 = StageMensesRecorded day.
Proof.
  intros day.
  refine (proj1 (X7_recorded_day_number history1 28 (PyDate.ymd2ord 2024 1 3)
    (initial_session 0) (set_ss_avg_period_length (initial_session 0) 5)
    (mkResult (Some 738886) (Some 738914) 28 5 (StageMensesRecorded 3)
       (DetailRecorded 738886 738890) 3 (Some 738890) 738888 (Some 26))
    (mkPeriod (PyDate.ymd2ord 2024 1 1) (PyDate.ymd2ord 2024 1 5)) _ _ _)).
  - reflexivity.
  - vm_compute. split; discriminate.
  - vm_compute. reflexivity.
Defined.

(** X8.  For a target before the latest recorded start and an average
    cycle that is not negative, a returned dictionary has the historical
    stage, a [day_since_start] of 0 or less, and a [days_to_next_period] that
    is a number, larger than the average cycle: the [None] of that branch
    needs a negative average. *)
Theorem X8_historical_days (periods : list period) (avg_cycle0 target : Z)
    (st st' : session_state) (r : Result) (last : period) :
  hd_error (sorted_desc periods) = Some last ->
  target < start last ->
  0 <= local_avg_cycle periods avg_cycle0 ->
  calculate_predictions periods avg_cycle0 target st = (Ok r, st') ->
  current_stage r = StageHistorical
  /\ day_since_start r <= 0
  /\ next_period_start r = Some (start last + avg_cycle r)
  /\ days_to_next_period r = Some (start last + avg_cycle r - target)
  /\ avg_cycle r < start last + avg_cycle r - target.
Proof.
  intros Hlast Hlt Hpos Hcall.
  assert (Hne : periods <> []) by (intros ->; discriminate).
  destruct (returned_averages periods avg_cycle0 target st st' r Hne Hcall)
    as [Ha _]. rewrite Ha. clear Ha.
  rewrite (calculate_predictions_explicit _ _ _ _ _ Hlast) in Hcall.
  injection Hcall as Hcl _.
  unfold classify, PyDate.days_between in Hcl.
  assert ((target <? start last) = true) as E1 by (apply Z.ltb_lt; lia).
  rewrite E1 in Hcl.
  bind_inv Hcl. apply timedelta_ok in E as [-> _].
  bind_inv Hcl. apply date_add_ok in E as [-> _].
  injection Hcl as <-. cbn.
  assert ((target <? start last + local_avg_cycle periods avg_cycle0) = true)
    as -> by (apply Z.ltb_lt; lia).
  repeat split; lia.
Qed.

Lemma X8_historical_days_witness :
  StageHistorical = StageHistorical.
Proof.
  refine (proj1 (X8_historical_days history1 28 (PyDate.ymd2ord 2023 12 25)
    (initial_session 0) (set_ss_avg_period_length (initial_session 0) 5)
    (mkResult (Some 738886) (Some 738914) 28 5 StageHistorical
       (DetailHistorical 738879 738886) (-6) (Some 738890) 738879 (Some 35))
    (mkPeriod (PyDate.ymd2ord 2024 1 1) (PyDate.ymd2ord 2024 1 5)) _ _ _ _)).
  - reflexivity.
  - vm_compute. reflexivity.
  - vm_compute. discriminate.
  - vm_compute. reflexivity.
Defined.

(** ** The session: [save_period], [delete_period] and the two panels *)

Lemma existsb_start_false (s : Z) (l : list period) :
  existsb (fun r => start r =? s) l = false <-> ~ In s (map start l).
Proof.
  induction l as [|p l IH]; simpl.
  - tauto.
  - rewrite orb_false_iff, IH, Z.eqb_neq. tauto.
Qed.

Lemma filter_start_absent (s : Z) (l : list period) :
  ~ In s (map start l) -> filter (fun r => negb (start r =? s)) l = l.
Proof.
  induction l as [|p l IH]; simpl; intros Hn; [reflexivity|].
  destruct (start p =? s) eqn:E; bool_to_prop; [tauto|].
  simpl. f_equal. apply IH. tauto.
Qed.

Lemma filter_start_gone (s : Z) (l : list period) :
  ~ In s (map start (filter (fun r => negb (start r =? s)) l)).
Proof.
  rewrite in_map_iff. intros (p & Hs & Hin).
  apply filter_In in Hin as [_ Hb].
  rewrite <- Hs, Z.eqb_refl in Hb. discriminate.
Qed.

Lemma filter_starts_nodup (f : period -> bool) (l : list period) :
  NoDup (map start l) -> NoDup (map start (filter f l)).
Proof.
  induction l as [|p l IH]; simpl; intros Hd; [constructor|].
  inversion Hd as [|? ? Hn Hd']; subst.
  destruct (f p); simpl; [|now apply IH].
  constructor; [|now apply IH].
  rewrite in_map_iff in *. intros (q & Hq & Hin).
  apply Hn. exists q. split; [exact Hq|]. now apply filter_In in Hin.
Qed.

Lemma save_period_ok (s e : Z) (st : session_state) :
  session_ok st -> session_ok (save_period s e st).
Proof.
  intros (Hd & Hall & Hc & Hm). unfold save_period.
  destruct (s <=? e) eqn:Ele; [|repeat split; assumption].
  destruct (existsb _ _) eqn:Eex; [repeat split; assumption|].
  apply existsb_start_false in Eex. bool_to_prop.
  repeat split; cbn; try assumption.
  - rewrite map_app. simpl.
    eapply Permutation_NoDup; [apply Permutation_cons_append|].
    now constructor.
  - apply Forall_app. split; [assumption|]. now repeat constructor.
Qed.

Lemma delete_period_ok (d : Z) (st : session_state) :
  session_ok st -> session_ok (delete_period d st).
Proof.
  intros (Hd & Hall & Hc & Hm). unfold delete_period.
  repeat split; cbn; try assumption.
  - now apply filter_starts_nodup.
  - rewrite Forall_forall in *. intros p Hp.
    apply filter_In in Hp as [Hp _]. now apply Hall.
Qed.

(** In a session that satisfies [session_ok] the average cycle in force is
    at least one day. *)
Lemma session_avg_cycle_pos (st : session_state) :
  session_ok st -> 1 <= local_avg_cycle (ss_periods st) (ss_avg_cycle st).
Proof.
  intros (Hd & _ & Hc & _).
  destruct (le_lt_dec 2 (length (ss_periods st))) as [Hlen|Hlen].
  - now apply local_avg_cycle_pos.
  - unfold local_avg_cycle. rewrite length_map, sorted_desc_length.
    assert ((1 <? length (ss_periods st))%nat = false) as ->
      by (apply Nat.ltb_ge; lia).
    exact Hc.
Qed.

Lemma status_ok (t : Z) (st : session_state) :
  session_ok st ->
  session_ok (snd (calculate_predictions (ss_periods st) (ss_avg_cycle st) t st)).
Proof.
  intros Hok. pose proof (session_avg_cycle_pos st Hok) as Hpos.
  destruct Hok as (Hd & Hall & Hc & Hm).
  destruct (ss_periods st) as [|first rest] eqn:Ep.
  { cbn. unfold session_ok. rewrite Ep. repeat split; assumption. }
  rewrite <- Ep in *.
  assert (Hne : ss_periods st <> []) by (rewrite Ep; discriminate).
  destruct (sorted_desc_nonempty _ Hne) as [last Hlast].
  rewrite (calculate_predictions_explicit _ _ _ _ _ Hlast).
  unfold session_ok.
  cbn [snd ss_periods ss_avg_cycle ss_avg_period_length ss_query_date].
  repeat split; try assumption.
  - destruct (1 <? length (ss_periods st))%nat; assumption.
  - now apply menses_average_pos.
Qed.

(** X9.  The script keeps its session well-formed.  The initial session
    has no two records with the same start, no record that ends before it
    starts, and both stored averages at least 1; saving a period, deleting a
    period and computing either panel all preserve this. *)
Theorem X9_session_invariant (st : session_state) (s e d today query : Z) :
  session_ok (initial_session today)
  /\ (session_ok st ->
      session_ok (save_period s e st)
      /\ session_ok (delete_period d st)
      /\ session_ok (snd (today_status today st))
      /\ session_ok (snd (query_status query st))).
Proof.
  split.
  - unfold session_ok. cbn. repeat split; try constructor; discriminate.
  - intros Hok. split; [|split; [|split]].
    + now apply save_period_ok.
    + now apply delete_period_ok.
    + now apply status_ok.
    + now apply status_ok.
Qed.

Lemma X9_session_invariant_witness :
  let st := save_period 100 104 (initial_session 120) in
  session_ok (save_period 128 131 st)
  /\ session_ok (delete_period 100 st)
  /\ session_ok (snd (today_status 120 st))
  /\ session_ok (snd (query_status 110 st)).
Proof.
  intros st.
  apply (proj2 (X9_session_invariant st 128 131 100 120 110)).
  unfold session_ok. vm_compute.
  repeat split; try discriminate; repeat constructor; simpl; intuition discriminate.
Defined.

(** X10.  In a well-formed session neither panel can end in a division by
    zero, and neither returns the delayed stage: the stored average cycle is
    at least 1, and an average computed from records with distinct starts is
    at least 1 as well. *)
Theorem X10_script_never_divides_by_zero (st : session_state) (today query : Z) :
  session_ok st ->
  fst (today_status today st) <> Raise ZeroDivisionError
  /\ phase_of (today_status today st) <> Some DELAYED
  /\ fst (query_status query (snd (today_status today st)))
       <> Raise ZeroDivisionError
  /\ phase_of (query_status query (snd (today_status today st)))
       <> Some DELAYED.
Proof.
  assert (Hgen : forall s t, session_ok s ->
            fst (calculate_predictions (ss_periods s) (ss_avg_cycle s) t s)
              <> Raise ZeroDivisionError
            /\ phase_of (calculate_predictions (ss_periods s) (ss_avg_cycle s) t s)
                 <> Some DELAYED).
  { intros s t Hok. pose proof (session_avg_cycle_pos s Hok) as Hpos.
    destruct (ss_periods s) as [|first rest] eqn:Ep.
    { cbn. split; discriminate. }
    rewrite <- Ep in *.
    assert (Hne : ss_periods s <> []) by (rewrite Ep; discriminate).
    destruct (sorted_desc_nonempty _ Hne) as [last Hlast].
    split.
    - rewrite (calculate_predictions_explicit _ _ _ _ _ Hlast).
      cbn [fst]. intros Hz. apply classify_zero_division in Hz. lia.
    - unfold phase_of, returned.
      destruct (calculate_predictions (ss_periods s) (ss_avg_cycle s) t s)
        as [[r|e] s'] eqn:Ecall; cbn [fst]; [|discriminate].
      destruct (returned_cases _ _ _ _ _ _ _ Hlast Hpos Ecall)
        as [(_ & Hs & _)|[(_ & Hs & _)|(_ & _ & Hs & _)]];
        cbv zeta in Hs; rewrite Hs; try discriminate.
      repeat match goal with
             | |- context [if ?b then _ else _] => destruct b
             end; discriminate. }
  intros Hok. unfold today_status, query_status in *.
  pose proof (status_ok today st Hok) as Hok1.
  destruct (Hgen st today Hok) as [H1 H2].
  destruct (Hgen _ query Hok1) as [H3 H4].
  repeat split; assumption.
Qed.

Lemma X10_script_never_divides_by_zero_witness :
  let st := save_period 100 104 (initial_session 200) in
  fst (today_status 200 st) <> Raise ZeroDivisionError.
Proof.
  intros st.
  apply (proj1 (X10_script_never_divides_by_zero st 200 150
    ltac:(unfold session_ok; vm_compute;
          repeat split; try discriminate; repeat constructor;
          simpl; intuition discriminate))).
Defined.

(** X12.  Once a period that starts on [s] has been saved, a later save
    with the same start is refused whatever end it gives: the session stays as
    the first save left it.  (A save refused for ending before it starts does
    not reserve its start date.) *)
Theorem X12_second_save_refused (s e e' : Z) (st : session_state) :
  s <= e ->
  save_period s e' (save_period s e st) = save_period s e st.
Proof.
  intros Hle. unfold save_period at 2 3.
  apply Z.leb_le in Hle. rewrite Hle.
  destruct (existsb (fun r => start r =? s) (ss_periods st)) eqn:Eex.
  - unfold save_period. rewrite Eex. now destruct (s <=? e').
  - unfold save_period. cbn [ss_periods set_ss_periods].
    rewrite existsb_app. cbn. rewrite Z.eqb_refl, orb_true_r.
    now destruct (s <=? e').
Qed.

Lemma X12_second_save_refused_witness :
  save_period 100 110 (save_period 100 104 (initial_session 200))
  = save_period 100 104 (initial_session 200).
Proof.
  apply X12_second_save_refused. vm_compute. discriminate.
Defined.

(** ** The text of the page: labels, tips and panels *)

Module UIFacts.
Import String Ascii UI.

(** [str(n)] is made of ASCII characters only. *)
Lemma string_of_uint_ascii (d : Decimal.uint) :
  Forall (fun c => (nat_of_ascii c < 128)%nat)
         (list_ascii_of_string (DecimalString.NilEmpty.string_of_uint d)).
Proof.
  induction d; simpl; constructor; try exact IHd; vm_compute; lia.
Qed.

Lemma py_str_ascii (z : Z) :
  Forall (fun c => (nat_of_ascii c < 128)%nat) (list_ascii_of_string (py_str z)).
Proof.
  unfold py_str, DecimalString.NilZero.string_of_int,
    DecimalString.NilZero.string_of_uint.
  destruct (Z.to_int z) as [d|d].
  - destruct d; try apply string_of_uint_ascii.
    simpl. constructor; [vm_compute; lia | constructor].
  - simpl. constructor; [vm_compute; lia|].
    destruct d; try apply string_of_uint_ascii.
    simpl. constructor; [vm_compute; lia | constructor].
Qed.

(** A search for a text that starts with a byte the string [m] does not
    contain cannot start inside [m]. *)
Lemma py_in_skip (c0 : ascii) (n' m rest : string) :
  Forall (fun c => c <> c0) (list_ascii_of_string m) ->
  py_in (String c0 n') (m ++ rest) = py_in (String c0 n') rest.
Proof.
  induction m as [|a m IH]; intros H; [reflexivity|].
  inversion H as [|? ? Ha Hm]; subst.
  cbn [append py_in prefix].
  destruct (ascii_dec c0 a) as [->|_]; [contradiction|].
  cbn [orb]. now apply IH.
Qed.

(** The searches of the script are for Chinese words, which start with a
    byte above 127: they step over a formatted number. *)
Lemma py_in_py_str (c0 : ascii) (n' rest : string) (d : Z) :
  (128 <= nat_of_ascii c0)%nat ->
  py_in (String c0 n') (py_str d ++ rest) = py_in (String c0 n') rest.
Proof.
  intros Hc. apply py_in_skip.
  eapply Forall_impl; [|apply py_str_ascii].
  cbv beta. intros a Ha ->. lia.
Qed.

(** X13.  For every stage label [calculate_predictions] can build, whatever
    the day number in it, cutting the label at the first parenthesis and
    stripping it gives exactly the tag of the stage, and
    [get_contextual_tip] finds the tip stored under that tag: the five keys of
    the dictionary are the five tags.  Only the no-record and the historical
    label, which have no entry, get the default tip. *)
Theorem X13_tip_matches_stage (s : stage) :
  let key i := fst (nth i tips (EmptyString, EmptyString)) in
  let tip i := snd (nth i tips (EmptyString, EmptyString)) in
  py_strip (split_head "(" (stage_label s))
  = match clean_stage s with
    | MENSES => key 0%nat
    | FERTILE => key 1%nat
    | FOLLICULAR => key 2%nat
    | LUTEAL => key 3%nat
    | DELAYED => key 4%nat
    | NO_DATA => stage_label StageNoRecord
    | HISTORICAL => stage_label StageHistorical
    end
  /\ get_contextual_tip (stage_label s)
     = match clean_stage s with
       | MENSES => tip 0%nat
       | FERTILE => tip 1%nat
       | FOLLICULAR => tip 2%nat
       | LUTEAL => tip 3%nat
       | DELAYED => tip 4%nat
       | NO_DATA | HISTORICAL => default_tip
       end
  /\ (get_contextual_tip (stage_label s) = default_tip
      <-> clean_stage s = NO_DATA \/ clean_stage s = HISTORICAL).
Proof.
  destruct s; cbv -[py_str]; (split; [reflexivity|]); (split; [reflexivity|]);
    (split; [intros H; first [discriminate H | tauto]
            | intros [H|H]; first [discriminate H | reflexivity]]).
Qed.

(** X14.  The tests the script makes on a stage label recognise exactly the
    stage they name, whatever the day number in the label: the word for the
    period occurs in the two period labels and in no other, the word for a
    delay only in the delayed label, the word for a historical query only in
    the historical label, and only the no-record label equals the no-record
    text. *)
Theorem X14_label_tests (s : stage) :
  py_in "月經期" (stage_label s)
  = match clean_stage s with MENSES => true | _ => false end
  /\ py_in "週期可能延遲" (stage_label s)
     = match clean_stage s with DELAYED => true | _ => false end
  /\ py_in "歷史查詢" (stage_label s)
     = match clean_stage s with HISTORICAL => true | _ => false end
  /\ String.eqb (stage_label s) "無紀錄"
     = match clean_stage s with NO_DATA => true | _ => false end.
Proof.
  destruct s; cbn -[py_str];
    rewrite ?py_in_py_str by (vm_compute; lia);
    repeat split; reflexivity.
Qed.

(** The same tests, for use in the panels. *)
Lemma label_tests (s : stage) :
  py_in "月經期" (stage_label s)
  = match clean_stage s with MENSES => true | _ => false end
  /\ py_in "週期可能延遲" (stage_label s)
     = match clean_stage s with DELAYED => true | _ => false end
  /\ py_in "歷史查詢" (stage_label s)
     = match clean_stage s with HISTORICAL => true | _ => false end
  /\ String.eqb (stage_label s) "無紀錄"
     = match clean_stage s with NO_DATA => true | _ => false end.
Proof.
  destruct s; cbn -[py_str];
    rewrite ?py_in_py_str by (vm_compute; lia);
    repeat split; reflexivity.
Qed.

(** The weekday of a date is one of the seven entries of the list. *)
Lemma weekday_range (d : Z) : 0 <= weekday d < 7.
Proof. unfold weekday. apply Z.mod_pos_bound. lia. Qed.

Lemma get_chinese_weekday_done (d : Z) :
  exists w, get_chinese_weekday d = Done w.
Proof.
  unfold get_chinese_weekday. pose proof (weekday_range d) as H.
  assert (weekday d = 0 \/ weekday d = 1 \/ weekday d = 2 \/ weekday d = 3
          \/ weekday d = 4 \/ weekday d = 5 \/ weekday d = 6) as Hw by lia.
  destruct Hw as [-> | [-> | [-> | [-> | [-> | [-> | ->]]]]]];
    eexists; reflexivity.
Qed.

(** X15.  [get_chinese_weekday] never indexes outside its list of seven
    names, dates a week apart get the same name, and two dates less than a
    week apart get different names. *)
Theorem X15_weekday_names (d1 d2 : Z) :
  (exists w, get_chinese_weekday d1 = Done w)
  /\ get_chinese_weekday (d1 + 7) = get_chinese_weekday d1
  /\ (0 < d2 - d1 < 7 -> get_chinese_weekday d1 <> get_chinese_weekday d2).
Proof.
  split; [apply get_chinese_weekday_done|]. split.
  - unfold get_chinese_weekday, weekday.
    replace (d1 + 7 + 6) with (d1 + 6 + 1 * 7) by lia.
    now rewrite Z.mod_add by lia.
  - intros Hd.
    assert (Hne : weekday d1 <> weekday d2).
    { unfold weekday. intros Heq.
      pose proof (Z.div_mod (d1 + 6) 7 ltac:(lia)).
      pose proof (Z.div_mod (d2 + 6) 7 ltac:(lia)). lia. }
    pose proof (weekday_range d1) as H1. pose proof (weekday_range d2) as H2.
    unfold get_chinese_weekday.
    assert (weekday d1 = 0 \/ weekday d1 = 1 \/ weekday d1 = 2 \/ weekday d1 = 3
            \/ weekday d1 = 4 \/ weekday d1 = 5 \/ weekday d1 = 6) as Hw1 by lia.
    assert (weekday d2 = 0 \/ weekday d2 = 1 \/ weekday d2 = 2 \/ weekday d2 = 3
            \/ weekday d2 = 4 \/ weekday d2 = 5 \/ weekday d2 = 6) as Hw2 by lia.
    destruct Hw1 as [E1 | [E1 | [E1 | [E1 | [E1 | [E1 | E1]]]]]];
      destruct Hw2 as [E2 | [E2 | [E2 | [E2 | [E2 | [E2 | E2]]]]]];
      rewrite E1, E2 in *; try lia; cbv; discriminate.
Qed.

Lemma X15_weekday_names_witness :
  get_chinese_weekday (PyDate.ymd2ord 2024 1 1)
  <> get_chinese_weekday (PyDate.ymd2ord 2024 1 4).
Proof.
  apply (proj2 (proj2 (X15_weekday_names (PyDate.ymd2ord 2024 1 1)
                         (PyDate.ymd2ord 2024 1 4)))).
  vm_compute. split; reflexivity.
Defined.

(** Step 3 leaves the latest record and the target in the dictionary. *)
Lemma classify_frame (ls le a dur t : Z) (R r : Result) :
  classify ls le a dur t R = Ok r ->
  last_period_date r = last_period_date R
  /\ last_period_end_date r = last_period_end_date R
  /\ target_date r = target_date R.
Proof.
  intros H.
  cbv beta zeta delta [classify classify_projected py_mod py_floordiv
                       PyDate.date_sub PyDate.date_add PyDate.timedelta] in H.
  repeat match type of H with
         | context [if ?b then _ else _] =>
           destruct b; cbn [bind] in H; try discriminate H
         end;
    injection H as <-; repeat split.
Qed.

Lemma returned_frame (periods : list period) (avg_cycle0 target : Z)
    (st st' : session_state) (r : Result) (last : period) :
  hd_error (sorted_desc periods) = Some last ->
  calculate_predictions periods avg_cycle0 target st = (Ok r, st') ->
  last_period_date r = Some (start last)
  /\ last_period_end_date r = Some (end_ last)
  /\ target_date r = target.
Proof.
  intros Hlast Hcall.
  rewrite (calculate_predictions_explicit _ _ _ _ _ Hlast) in Hcall.
  injection Hcall as Hcl _. now apply classify_frame in Hcl.
Qed.

(** The dates a returning call has built are dates of the calendar. *)
Lemma returned_calendar (periods : list period) (avg_cycle0 target : Z)
    (st st' : session_state) (r : Result) (last : period) :
  hd_error (sorted_desc periods) = Some last ->
  calculate_predictions periods avg_cycle0 target st = (Ok r, st') ->
  let a := local_avg_cycle periods avg_cycle0 in
  let dur := menses_average periods in
  let pcs := start last + (target - start last) / a * a in
  Z.abs a <= PyDate.MAX_DELTA_DAYS
  /\ (target < start last \/ target <= end_ last ->
      0 < start last + a <= PyDate.MAXORDINAL)
  /\ (start last <= target -> end_ last < target ->
      Z.abs ((target - start last) / a * a) <= PyDate.MAX_DELTA_DAYS
      /\ 0 < pcs <= PyDate.MAXORDINAL
      /\ 0 < pcs + a <= PyDate.MAXORDINAL
      /\ Z.abs (dur - 1) <= PyDate.MAX_DELTA_DAYS
      /\ 0 < pcs + (dur - 1) <= PyDate.MAXORDINAL).
Proof.
  intros Hlast Hcall a dur pcs.
  rewrite (calculate_predictions_explicit _ _ _ _ _ Hlast) in Hcall.
  injection Hcall as Hcl _. fold a dur in Hcl.
  unfold classify, PyDate.days_between in Hcl.
  destruct (target <? start last) eqn:E1.
  - bind_inv Hcl. apply timedelta_ok in E as [-> Ha].
    bind_inv Hcl. apply date_add_ok in E as [-> Hd].
    bool_to_prop. repeat split; try lia.
  - destruct (target <=? end_ last) eqn:E2.
    + bind_inv Hcl. apply timedelta_ok in E as [-> Ha].
      bind_inv Hcl. apply date_add_ok in E as [-> Hd].
      bool_to_prop. repeat split; try lia.
    + unfold classify_projected in Hcl.
      replace (target - start last + 1 - 1) with (target - start last) in Hcl by lia.
      bind_inv Hcl. apply py_mod_ok in E as [-> Hne].
      bind_inv Hcl. apply py_floordiv_ok in E as [-> _].
      bind_inv Hcl. apply timedelta_ok in E as [-> Hq].
      bind_inv Hcl. apply date_add_ok in E as [-> Hpcs].
      bind_inv Hcl. apply timedelta_ok in E as [-> Ha].
      bind_inv Hcl. apply date_add_ok in E as [-> Hpnps].
      bind_inv Hcl. apply timedelta_ok in E as [-> Hdur].
      bind_inv Hcl. apply date_add_ok in E as [-> Hpme].
      bool_to_prop. subst pcs. repeat split; try lia.
Qed.

(** The today panel, with the tests on the label replaced by the stage. *)
Lemma today_section_by_stage (today l e : Z) (r : Result) (w : string) :
  last_period_date r = Some l ->
  last_period_end_date r = Some e ->
  get_chinese_weekday today = Done w ->
  today_section today r
  = Done (Some (mkTodayView today w
      (py_strip (split_head "(" (stage_label (current_stage r))))
      (match clean_stage (current_stage r) with
       | NO_DATA | HISTORICAL => None
       | _ => Some (get_contextual_tip (stage_label (current_stage r)))
       end)
      (match clean_stage (current_stage r) with
       | DELAYED => Some NoticeLate
       | MENSES =>
         if target_date r <=? e then Some NoticeInPeriod
         else match days_to_next_period r with
              | Some n => if n =? 0 then Some NoticeDueToday
                          else if 0 <? n then Some (NoticeDaysLeft n) else None
              | None => None
              end
       | _ =>
         match days_to_next_period r with
         | Some n => if 0 <? n then Some (NoticeDaysLeft n) else None
         | None => None
         end
       end))).
Proof.
  intros Hl He Hw. unfold today_section. rewrite Hl, Hw. cbn [ubind].
  destruct (label_tests (current_stage r)) as (T1 & T2 & T3 & T4).
  rewrite T1, T2, T3, T4, He.
  destruct (clean_stage (current_stage r)); cbn [ubind negb andb];
    try reflexivity;
    try (destruct (target_date r <=? e); cbn [ubind]; try reflexivity);
    destruct (days_to_next_period r) as [n|]; cbn [ubind]; try reflexivity;
    rewrite ?andb_false_r, ?andb_true_r;
    destruct (n =? 0) eqn:E0; cbn [ubind andb]; try reflexivity;
    destruct (0 <? n) eqn:E1; try reflexivity;
    bool_to_prop; lia.
Qed.

(** X16.  In a well-formed session with a record, whenever the today
    call returns, the today panel is shown without an error.  Its notice is
    the in-period notice exactly when today lies in the latest recorded
    period, and otherwise the countdown with [days_to_next_period], which is
    then at least 1; the late notice and the due-today notice are never
    shown.  The tip is left out for a historical query and is otherwise the
    tip stored for the stage, never the default tip. *)
Theorem X16_today_panel (st st1 : session_state) (today : Z) (r : Result)
    (last : period) :
  session_ok st ->
  hd_error (sorted_desc (ss_periods st)) = Some last ->
  today_status today st = (Ok r, st1) ->
  exists v,
    today_section today r = Done (Some v)
    /\ (start last <= today <= end_ last -> tv_notice v = Some NoticeInPeriod)
    /\ (~ start last <= today <= end_ last ->
        exists n, days_to_next_period r = Some n /\ 1 <= n
                  /\ tv_notice v = Some (NoticeDaysLeft n))
    /\ tv_notice v <> Some NoticeLate
    /\ tv_notice v <> Some NoticeDueToday
    /\ (today < start last -> tv_tip v = None)
    /\ (start last <= today ->
        tv_tip v = Some (get_contextual_tip (stage_label (current_stage r)))
        /\ tv_tip v <> Some default_tip).
Proof.
  intros Hok Hlast Hcall. unfold today_status in Hcall.
  pose proof (session_avg_cycle_pos st Hok) as Hpos.
  assert (Hinv : start last <= end_ last).
  { destruct Hok as (_ & Hall & _). rewrite Forall_forall in Hall.
    apply Hall. now apply last_record_latest. }
  destruct (returned_frame _ _ _ _ _ _ _ Hlast Hcall) as (Hl & He & Ht).
  destruct (get_chinese_weekday_done today) as [w Hw].
  rewrite (today_section_by_stage today _ _ r w Hl He Hw).
  eexists. split; [reflexivity|]. cbn [tv_notice tv_tip]. rewrite Ht.
  destruct (returned_cases _ _ _ _ _ _ _ Hlast Hpos Hcall)
    as [(Hc & Hs & _ & _ & Hd)|[(Hc & Hs & _ & _ & Hd)
       |(Hc1 & Hc2 & Hs & _ & _ & Hd & Hday)]];
    cbv zeta in *; rewrite Hs, Hd.
  - cbn [clean_stage].
    assert ((0 <? start last + local_avg_cycle (ss_periods st) (ss_avg_cycle st)
                  - today) = true) as -> by (apply Z.ltb_lt; lia).
    repeat split; try discriminate; try lia.
    intros _. eexists. repeat split. lia.
  - cbn [clean_stage].
    assert ((today <=? end_ last) = true) as -> by (apply Z.leb_le; lia).
    repeat split; try discriminate; try lia; try reflexivity.
  - set (c := (today - start last)
                mod local_avg_cycle (ss_periods st) (ss_avg_cycle st) + 1) in *.
    assert ((today <=? end_ last) = false) as Hle by (apply Z.leb_gt; lia).
    repeat match goal with
           | |- context [if ?b then _ else _] =>
             match b with
             | (c <=? _) => destruct b
             | (_ <=? 13) => destruct b
             | (_ <=? 19) => destruct b
             end
           end;
      cbn [clean_stage]; rewrite ?Hle;
      match goal with
      | |- context [Some ?n = Some _] =>
        assert ((0 <? n) = true) as E1 by (apply Z.ltb_lt; lia);
        assert ((n =? 0) = false) as E0 by (apply Z.eqb_neq; lia)
      end;
      rewrite ?E0, ?E1;
      (split; [intros; lia|]);
      (split; [intros _; eexists; repeat split; lia|]);
      repeat split; try discriminate; try lia.
Qed.

Lemma X16_today_panel_witness :
  exists v,
    today_section (PyDate.ymd2ord 2024 1 10)
      (mkResult (Some 738886) (Some 738914) 28 5 (StageFertile 10)
         (DetailFertile 10) 10 (Some 738890) 738895 (Some 19))
    = Done (Some v).
Proof.
  destruct (X16_today_panel
    (save_period (PyDate.ymd2ord 2024 1 1) (PyDate.ymd2ord 2024 1 5)
       (initial_session (PyDate.ymd2ord 2024 1 10)))
    (mkSession history1 28 5 (PyDate.ymd2ord 2024 1 10))
    (PyDate.ymd2ord 2024 1 10)
    (mkResult (Some 738886) (Some 738914) 28 5 (StageFertile 10)
       (DetailFertile 10) 10 (Some 738890) 738895 (Some 19))
    (mkPeriod (PyDate.ymd2ord 2024 1 1) (PyDate.ymd2ord 2024 1 5)))
    as (v & Hv & _).
  - unfold session_ok. vm_compute.
    repeat split; try discriminate; repeat constructor; simpl; intuition discriminate.
  - reflexivity.
  - vm_compute. reflexivity.
  - exists v. exact Hv.
Defined.

(** The state the today call leaves is the state every later call of the
    same run leaves, and the average cycle stored in it is the one in the
    returned dictionary. *)
Lemma run_state (st : session_state) (today query : Z) (last : period) :
  hd_error (sorted_desc (ss_periods st)) = Some last ->
  let st1 := snd (today_status today st) in
  snd (query_status query st1) = st1
  /\ ss_avg_cycle st1 = local_avg_cycle (ss_periods st) (ss_avg_cycle st)
  /\ ss_avg_period_length st1 = menses_average (ss_periods st)
  /\ ss_periods st1 = ss_periods st.
Proof.
  intros Hlast st1. subst st1. unfold today_status, query_status.
  rewrite !(calculate_predictions_explicit _ _ _ _ _ Hlast).
  cbn [fst snd ss_periods ss_avg_cycle ss_avg_period_length ss_query_date].
  rewrite !local_avg_cycle_stable.
  unfold local_avg_cycle. rewrite length_map, sorted_desc_length.
  destruct (1 <? List.length (ss_periods st))%nat; repeat split.
Qed.

(** Section 4c against the dictionary of the today call. *)
Lemma next_period_section_props (periods : list period) (avg_cycle0 today : Z)
    (st st' : session_state) (r : Result) (last : period) :
  hd_error (sorted_desc periods) = Some last ->
  start last <= end_ last ->
  1 <= local_avg_cycle periods avg_cycle0 ->
  calculate_predictions periods avg_cycle0 today st = (Ok r, st') ->
  let a := local_avg_cycle periods avg_cycle0 in
  (forall shown,
     next_period_section today r a = Done shown -> shown = next_period_start r)
  /\ (0 < start last <= today -> today <= PyDate.MAXORDINAL ->
      exists shown, next_period_section today r a = Done shown).
Proof.
  intros Hlast Hinv Hpos Hcall a.
  destruct (returned_frame _ _ _ _ _ _ _ Hlast Hcall) as (Hl & He & _).
  destruct (returned_calendar _ _ _ _ _ _ _ Hlast Hcall) as (Hb1 & Hb2 & Hb3).
  cbv zeta in Hb1, Hb2, Hb3.
  pose proof (returned_cases _ _ _ _ _ _ _ Hlast Hpos Hcall) as Hcases.
  cbv zeta in Hcases. fold a in Hb1, Hb2, Hb3, Hcases, Hpos.
  destruct (projected_window (start last) a today ltac:(lia)) as [Hw Hm].
  cbv zeta in Hw, Hm.
  assert (Hq0 : start last <= today -> 0 <= (today - start last) / a * a)
    by (intros; apply Z.mul_nonneg_nonneg; [apply Z.div_pos|]; lia).
  assert (Hall : forall res,
            next_period_section today r a = res ->
            (forall shown, res = Done shown -> shown = next_period_start r)
            /\ (0 < start last <= today -> today <= PyDate.MAXORDINAL ->
                exists shown, res = Done shown)).
  { intros res H.
    cbv beta zeta delta [next_period_section lift py_floordiv
                         PyDate.timedelta PyDate.date_add PyDate.days_between] in H.
    rewrite Hl, He in H.
    unfold PyDate.MAX_DELTA_DAYS, PyDate.MAXORDINAL in *.
    repeat match type of H with
           | context [if ?b then _ else _] =>
             destruct b eqn:?; cbn [ubind] in H
           end;
      subst res; bool_to_prop;
      repeat match goal with
             | Hor : (_ = false) \/ (_ = false) |- _ => destruct Hor
             end;
      bool_to_prop;
      (split; [intros shown Hs; first [discriminate Hs | injection Hs as <-]
              | intros Hdate1 Hdate2; first [eexists; reflexivity | exfalso]]);
      destruct Hcases as [(? & _ & _ & Hn & _)|[(? & _ & _ & Hn & _)
                         |(? & ? & _ & _ & Hn & _)]];
      try lia; try (rewrite Hn; f_equal; lia). }
  exact (Hall _ eq_refl).
Qed.

(** Section 4c takes from the dictionary only the two dates of the latest
    record. *)
Lemma next_period_section_frame (now avg : Z) (r r' : Result) :
  last_period_date r = last_period_date r' ->
  last_period_end_date r = last_period_end_date r' ->
  next_period_section now r avg = next_period_section now r' avg.
Proof. intros H1 H2. unfold next_period_section. now rewrite H1, H2. Qed.

(** X17.  Section 4c reads the clock again.  In a well-formed session the
    date it shows as the next expected start is, whenever the section
    finishes, the [next_period_start] that a call for the date it reads
    returns; so when the date has not changed since the today call it is the
    [next_period_start] of the today dictionary, and after a change of date it
    is that of the new day.  Its last branch, which would show the start of
    the current projected cycle, is never the one taken.  The section does
    finish when the date it reads is on or after the latest recorded start. *)
Theorem X17_next_expected_start (st st1 st1' : session_state)
    (today now query : Z) (r r' : Result) (last : period) :
  session_ok st ->
  hd_error (sorted_desc (ss_periods st)) = Some last ->
  today_status today st = (Ok r, st1) ->
  today_status now st = (Ok r', st1') ->
  let avg := ss_avg_cycle (snd (query_status query st1)) in
  (forall shown,
     next_period_section now r avg = Done shown ->
     shown = next_period_start r')
  /\ (0 < start last <= now -> now <= PyDate.MAXORDINAL ->
      next_period_section now r avg = Done (next_period_start r'))
  /\ (now = today ->
      forall shown,
        next_period_section now r avg = Done shown ->
        shown = next_period_start r).
Proof.
  intros Hok Hlast Hcall Hcall' avg.
  pose proof (session_avg_cycle_pos st Hok) as Hpos.
  assert (Hinv : start last <= end_ last).
  { destruct Hok as (_ & Hall & _). rewrite Forall_forall in Hall.
    apply Hall. now apply last_record_latest. }
  assert (Hst1 : st1 = snd (today_status today st)) by now rewrite Hcall.
  destruct (run_state st today query last Hlast) as (Hq & Ha & _).
  cbv zeta in Hq, Ha. rewrite <- Hst1 in Hq, Ha.
  assert (Havg : avg = local_avg_cycle (ss_periods st) (ss_avg_cycle st))
    by (subst avg; now rewrite Hq).
  clearbody avg. subst avg. unfold today_status in Hcall, Hcall'.
  destruct (returned_frame _ _ _ _ _ _ _ Hlast Hcall) as (Hl & He & _).
  destruct (returned_frame _ _ _ _ _ _ _ Hlast Hcall') as (Hl' & He' & _).
  rewrite (next_period_section_frame now _ r r')
    by (now rewrite ?Hl, ?Hl', ?He, ?He').
  destruct (next_period_section_props _ _ _ _ _ _ _ Hlast Hinv Hpos Hcall')
    as [H1 H2].
  split; [exact H1|]. split.
  - intros Hd Hmax. destruct (H2 Hd Hmax) as [shown Hs].
    rewrite Hs. f_equal. now apply H1.
  - intros -> shown Hs. rewrite (H1 _ Hs).
    rewrite Hcall in Hcall'. now injection Hcall' as <- _.
Qed.

Lemma X17_next_expected_start_witness :
  next_period_section (PyDate.ymd2ord 2024 1 29)
    (mkResult (Some 738886) (Some 738914) 28 5 (StageLuteal 28)
       (DetailLuteal 28 1) 28 (Some 738890) 738913 (Some 1))
    (ss_avg_cycle
       (snd (query_status (PyDate.ymd2ord 2024 2 1)
               (mkSession history1 28 5 (PyDate.ymd2ord 2024 1 10)))))
  = Done (Some (PyDate.ymd2ord 2024 2 26)).
Proof.
  refine (proj1 (proj2 (X17_next_expected_start
    (save_period (PyDate.ymd2ord 2024 1 1) (PyDate.ymd2ord 2024 1 5)
       (initial_session (PyDate.ymd2ord 2024 1 10)))
    (mkSession history1 28 5 (PyDate.ymd2ord 2024 1 10))
    (mkSession history1 28 5 (PyDate.ymd2ord 2024 1 10))
    (PyDate.ymd2ord 2024 1 28) (PyDate.ymd2ord 2024 1 29)
    (PyDate.ymd2ord 2024 2 1)
    (mkResult (Some 738886) (Some 738914) 28 5 (StageLuteal 28)
       (DetailLuteal 28 1) 28 (Some 738890) 738913 (Some 1))
    (mkResult (Some 738886) (Some 738942) 28 5 (StageMensesProjected 1)
       DetailProjectedMenses 29 (Some 738890) 738914 (Some 28))
    (mkPeriod (PyDate.ymd2ord 2024 1 1) (PyDate.ymd2ord 2024 1 5))
    _ _ _ _)) _ _).
  - unfold session_ok. vm_compute.
    repeat split; try discriminate; repeat constructor; simpl; intuition discriminate.
  - reflexivity.
  - vm_compute. reflexivity.
  - vm_compute. reflexivity.
  - vm_compute. split; [reflexivity | discriminate].
  - vm_compute. discriminate.
Defined.

(** The query panel against the dictionary of the query call. *)
Lemma query_section_props (periods : list period) (avg_cycle0 query : Z)
    (st st' : session_state) (r : Result) (last : period) :
  hd_error (sorted_desc periods) = Some last ->
  start last <= end_ last ->
  1 <= local_avg_cycle periods avg_cycle0 ->
  calculate_predictions periods avg_cycle0 query st = (Ok r, st') ->
  let a := local_avg_cycle periods avg_cycle0 in
  let dur := menses_average periods in
  let c := (query - start last) mod a + 1 in
  (forall shown, query_section query r = Done shown ->
     exists v,
       shown = Some v
       /\ qv_notice v <> Some QueryLate
       /\ (clean_stage (current_stage r) = MENSES ->
           qv_notice v
           = if c <=? dur then Some (QueryPeriodUntil (query + (dur - c)))
             else Some QueryPeriodOver)
       /\ (clean_stage (current_stage r) <> MENSES ->
           exists n, days_to_next_period r = Some n /\ 1 <= n
                     /\ qv_notice v = Some (QueryDaysLeft n)))
  /\ (query < start last \/ end_ last < query ->
      (exists shown, query_section query r = Done shown)
      /\ (clean_stage (current_stage r) = MENSES -> c <= dur))
  /\ (0 < start last <= query -> 1 <= dur ->
      query + dur <= PyDate.MAXORDINAL ->
      exists shown, query_section query r = Done shown).
Proof.
  intros Hlast Hinv Hpos Hcall a dur c.
  assert (Hne : periods <> []) by (intros E; rewrite E in Hlast; discriminate).
  destruct (returned_averages _ _ _ _ _ _ Hne Hcall) as [Hav Hdu].
  destruct (returned_frame _ _ _ _ _ _ _ Hlast Hcall) as (Hl & He & _).
  destruct (returned_calendar _ _ _ _ _ _ _ Hlast Hcall) as (Hb1 & Hb2 & Hb3).
  cbv zeta in Hb1, Hb2, Hb3.
  pose proof (returned_cases _ _ _ _ _ _ _ Hlast Hpos Hcall) as Hcases.
  cbv zeta in Hcases.
  fold a in Hav, Hb1, Hb2, Hb3, Hcases, Hpos.
  fold dur in Hdu, Hb3, Hcases. fold c in Hcases.
  destruct (projected_window (start last) a query ltac:(lia)) as [Hw Hm].
  cbv zeta in Hw, Hm.
  assert (Hq0 : start last <= query -> 0 <= (query - start last) / a * a)
    by (intros; apply Z.mul_nonneg_nonneg; [apply Z.div_pos|]; lia).
  pose proof (Z.mod_pos_bound (query - start last) a ltac:(lia)) as Hmb.
  destruct (get_chinese_weekday_done query) as [w Hwd].
  destruct (label_tests (current_stage r)) as (T1 & T2 & _ & _).
  assert (Hall : forall res, query_section query r = res ->
    (forall shown, res = Done shown ->
       exists v,
         shown = Some v
         /\ qv_notice v <> Some QueryLate
         /\ (clean_stage (current_stage r) = MENSES ->
             qv_notice v
             = if c <=? dur then Some (QueryPeriodUntil (query + (dur - c)))
               else Some QueryPeriodOver)
         /\ (clean_stage (current_stage r) <> MENSES ->
             exists n, days_to_next_period r = Some n /\ 1 <= n
                       /\ qv_notice v = Some (QueryDaysLeft n)))
    /\ (query < start last \/ end_ last < query ->
        (exists shown, res = Done shown)
        /\ (clean_stage (current_stage r) = MENSES -> c <= dur))
    /\ (0 < start last <= query -> 1 <= dur ->
        query + dur <= PyDate.MAXORDINAL ->
        exists shown, res = Done shown)).
  { intros res H.
    cbv beta zeta delta [query_section lift py_floordiv
                         PyDate.timedelta PyDate.date_add PyDate.days_between] in H.
    rewrite Hl, Hwd, T1, T2, Hav, Hdu in H. cbn [ubind] in H.
    unfold PyDate.MAX_DELTA_DAYS, PyDate.MAXORDINAL in *.
    destruct Hcases as [(Hc & Hs & _ & _ & Hd)|[(Hc & Hs & _ & _ & Hd)
                       |(Hc1 & Hc2 & Hs & _ & _ & Hd & Hday)]];
      repeat match type of Hs with
             | context [if ?b then _ else _] => destruct b eqn:?
             end;
      rewrite Hs, Hd in *; cbn [clean_stage negb andb] in *;
      repeat match type of H with
             | context [if ?b then _ else _] =>
               destruct b eqn:?; cbn [ubind option_map] in H
             end;
      subst res; bool_to_prop;
      repeat match goal with
             | Hor : (_ = false) \/ (_ = false) |- _ => destruct Hor
             end;
      bool_to_prop;
      (split;
       [ intros shown Hsh;
         first
           [ discriminate Hsh
           | injection Hsh as <-;
             eexists; split; [reflexivity|]; cbn [qv_notice];
             split; [discriminate|];
             split;
             [ intros Hmen; first [discriminate Hmen | idtac];
               destruct (c <=? dur) eqn:Ecd; bool_to_prop;
               first [lia | do 2 f_equal; lia | reflexivity]
             | intros Hnot; first [congruence | eexists; repeat split; lia] ] ]
       | split;
         [ intros Hside; split;
           [ first [eexists; reflexivity | exfalso; lia]
           | intros Hmen; first [discriminate Hmen | lia] ]
         | intros Hd1 Hd2 Hd3; first [eexists; reflexivity | exfalso; lia] ] ]). }
  exact (Hall _ eq_refl).
Qed.

(** X18.  The query panel in a well-formed session.  It never shows the
    late notice.  For a stage other than the period it shows the countdown
    with [days_to_next_period], which is at least 1.  For a period stage it
    shows the period as lasting until [query + (avg_period_length - cycle
    day)] while the cycle day is at most the average period length, and as
    over after that; in a projected period the cycle day is always within the
    average, so a projected period is never shown as over.  The panel always
    finishes for a query before the latest start or after the latest end. *)
Theorem X18_query_panel (st st' : session_state) (query : Z) (r : Result)
    (last : period) :
  session_ok st ->
  hd_error (sorted_desc (ss_periods st)) = Some last ->
  query_status query st = (Ok r, st') ->
  let c := (query - start last) mod avg_cycle r + 1 in
  (forall shown, query_section query r = Done shown ->
     exists v,
       shown = Some v
       /\ qv_notice v <> Some QueryLate
       /\ (clean_stage (current_stage r) = MENSES ->
           qv_notice v
           = if c <=? avg_period_length r
             then Some (QueryPeriodUntil (query + (avg_period_length r - c)))
             else Some QueryPeriodOver)
       /\ (clean_stage (current_stage r) <> MENSES ->
           exists n, days_to_next_period r = Some n /\ 1 <= n
                     /\ qv_notice v = Some (QueryDaysLeft n)))
  /\ (query < start last \/ end_ last < query ->
      (exists shown, query_section query r = Done shown)
      /\ (clean_stage (current_stage r) = MENSES -> c <= avg_period_length r)).
Proof.
  intros Hok Hlast Hcall c. unfold query_status in Hcall.
  pose proof (session_avg_cycle_pos st Hok) as Hpos.
  assert (Hinv : start last <= end_ last).
  { destruct Hok as (_ & Hall & _). rewrite Forall_forall in Hall.
    apply Hall. now apply last_record_latest. }
  assert (Hne : ss_periods st <> []) by (intros E; rewrite E in Hlast; discriminate).
  destruct (returned_averages _ _ _ _ _ _ Hne Hcall) as [Hav Hdu].
  subst c. rewrite Hav, Hdu.
  destruct (query_section_props _ _ _ _ _ _ _ Hlast Hinv Hpos Hcall)
    as (H1 & H2 & _).
  split; [exact H1 | exact H2].
Qed.

Lemma X18_query_panel_witness :
  exists shown,
    query_section (PyDate.ymd2ord 2024 3 1)
      (mkResult (Some 738886) (Some 738970) 28 5 (StageMensesProjected 5)
         DetailProjectedMenses 61 (Some 738890) 738946 (Some 24))
    = Done shown.
Proof.
  refine (proj1 (proj2 (X18_query_panel
    (mkSession history1 28 5 (PyDate.ymd2ord 2024 1 10))
    (mkSession history1 28 5 (PyDate.ymd2ord 2024 1 10))
    (PyDate.ymd2ord 2024 3 1)
    (mkResult (Some 738886) (Some 738970) 28 5 (StageMensesProjected 5)
       DetailProjectedMenses 61 (Some 738890) 738946 (Some 24))
    (mkPeriod (PyDate.ymd2ord 2024 1 1) (PyDate.ymd2ord 2024 1 5)) _ _ _) _)).
  - unfold session_ok. vm_compute.
    repeat split; try discriminate; repeat constructor; simpl; intuition discriminate.
  - reflexivity.
  - vm_compute. reflexivity.
  - right. vm_compute. reflexivity.
Defined.

(** A call returns when the dates it builds stay in the calendar. *)
Lemma calculate_predictions_returns (periods : list period)
    (avg_cycle0 target : Z) (st : session_state) (last : period) :
  hd_error (sorted_desc periods) = Some last ->
  let a := local_avg_cycle periods avg_cycle0 in
  let dur := menses_average periods in
  1 <= a -> 1 <= dur ->
  19 <= start last -> start last + a <= PyDate.MAXORDINAL ->
  (end_ last < target ->
   target + a <= PyDate.MAXORDINAL /\ target + dur <= PyDate.MAXORDINAL) ->
  exists r st',
    calculate_predictions periods avg_cycle0 target st = (Ok r, st').
Proof.
  intros Hlast a dur Ha Hdur Hls Hla Hproj.
  rewrite (calculate_predictions_explicit _ _ _ _ _ Hlast). fold a dur.
  unfold PyDate.MAXORDINAL in *.
  destruct (Z_lt_le_dec target (start last)) as [Hlt|Hge];
    [|destruct (Z_le_gt_dec target (end_ last)) as [Hin|Hout]].
  - destruct (classify_recorded_returns (start last) (end_ last) a dur target
                (mkResult (Some (start last)) None a dur StageNoRecord
                   DetailNoRecord 0 (Some (end_ last)) target None))
      as [r Hr]; unfold PyDate.MAX_DELTA_DAYS, PyDate.MAXORDINAL; try lia.
    rewrite Hr. now eexists; eexists.
  - destruct (classify_recorded_returns (start last) (end_ last) a dur target
                (mkResult (Some (start last)) None a dur StageNoRecord
                   DetailNoRecord 0 (Some (end_ last)) target None))
      as [r Hr]; unfold PyDate.MAX_DELTA_DAYS, PyDate.MAXORDINAL; try lia.
    rewrite Hr. now eexists; eexists.
  - destruct Hproj as [Hpa Hpd]; [lia|].
    unfold classify, PyDate.days_between.
    assert ((target <? start last) = false) as -> by (apply Z.ltb_ge; lia).
    assert ((target <=? end_ last) = false) as -> by (apply Z.leb_gt; lia).
    destruct (projected_window (start last) a target ltac:(lia)) as [Hw _].
    cbv zeta in Hw.
    assert (Hq : 0 <= (target - start last) / a * a)
      by (apply Z.mul_nonneg_nonneg; [apply Z.div_pos|]; lia).
    match goal with
    | |- context [classify_projected ?ls ?ac ?du ?t ?d ?R] =>
      assert (Hr : exists r, classify_projected ls ac du t d R = Ok r)
    end.
    { apply classify_projected_returns;
        replace (target - start last + 1 - 1) with (target - start last) by lia;
        unfold PyDate.MAX_DELTA_DAYS, PyDate.MAXORDINAL in *; lia. }
    destruct Hr as [r Hr]. rewrite Hr. now eexists; eexists.
Qed.

(** The query call after the today call of the same run. *)
Lemma query_after_today (st : session_state) (today query : Z) :
  query_status query (snd (today_status today st))
  = (fst (query_status query st), snd (today_status today st)).
Proof.
  unfold today_status, query_status.
  destruct (ss_periods st) as [|first rest] eqn:Ep.
  { cbn. rewrite Ep. reflexivity. }
  rewrite <- Ep.
  assert (Hne : ss_periods st <> []) by (rewrite Ep; discriminate).
  destruct (sorted_desc_nonempty _ Hne) as [last Hlast].
  rewrite !(calculate_predictions_explicit _ _ _ _ _ Hlast).
  cbn [fst snd ss_periods ss_avg_cycle ss_query_date].
  rewrite !local_avg_cycle_stable.
  destruct (1 <? List.length (ss_periods st))%nat; reflexivity.
Qed.

(** X19.  The info line of the history list belongs to the list it heads.
    After a run of the page on a history with a record, the records shown are
    the stored ones in descending order of start, the average period length
    shown is an integer nearest to the exact mean of the lengths of the
    records shown, and the average cycle shown is an integer nearest to the
    exact mean of the gaps between the starts shown when there are two records
    or more, and the average the session had stored before the run when there
    is one.  On an empty history the list is replaced by the note. *)
Theorem X19_history_info (st : session_state) (today query : Z) :
  let st2 := snd (query_status query (snd (today_status today st))) in
  match history_section st2 with
  | None => ss_periods st = []
  | Some (cyc, len, shown) =>
    Permutation shown (ss_periods st)
    /\ spec_sorted_desc shown
    /\ spec_integer_rounded_mean
         (map (fun p => (end_ p - start p) + 1) shown) len
    /\ ((2 <= List.length shown)%nat ->
        spec_integer_rounded_mean (spec_consecutive_gaps (map start shown)) cyc)
    /\ (List.length shown = 1%nat -> cyc = ss_avg_cycle st)
  end.
Proof.
  intros st2. subst st2. rewrite query_after_today. cbn [snd].
  unfold history_section.
  destruct (ss_periods st) as [|first rest] eqn:Ep.
  { unfold today_status. rewrite Ep. cbn. now rewrite Ep. }
  assert (Hne : ss_periods st <> []) by (rewrite Ep; discriminate).
  destruct (sorted_desc_nonempty _ Hne) as [last Hlast].
  destruct (run_state st today query last Hlast) as (_ & Ha & Hm & Hp).
  cbv zeta in Ha, Hm, Hp. rewrite Hp, Ha, Hm, Ep. rewrite <- Ep.
  pose proof (sorted_desc_perm (ss_periods st)) as HP.
  split; [exact HP|]. split; [apply sorted_desc_sorted|]. split; [|split].
  - rewrite (menses_average_perm _ _ (Permutation_sym HP)), menses_average_mean.
    apply py_rounded_mean_is_rounded_mean.
    intros E. apply map_eq_nil in E. rewrite E in Hlast. discriminate.
  - intros Hlen. rewrite (Permutation_length HP) in Hlen.
    rewrite (local_avg_cycle_gaps _ _ (ss_avg_cycle st) Hlen HP
               (sorted_desc_sorted _)).
    apply py_rounded_mean_is_rounded_mean.
    intros E. apply (f_equal (@List.length Z)) in E.
    rewrite spec_consecutive_gaps_length, length_map, (Permutation_length HP) in E.
    simpl in E. lia.
  - intros Hlen. rewrite (Permutation_length HP) in Hlen.
    now apply local_avg_cycle_single.
Qed.

(** X20.  A run of the page in a well-formed session.  On an empty history
    it shows the warning and the note and changes nothing.  On a history
    whose latest record starts on 0001-01-19 or later and not after today,
    with today and the queried date far enough from 9999-12-31 for the two
    averages to be added to them, the run ends without an exception and shows
    all four sections. *)
Theorem X20_page_runs (st : session_state) (today query : Z) :
  session_ok st ->
  (ss_periods st = [] ->
   run_page today query st = (Done (mkPageView None None None None), st))
  /\ (forall last,
        hd_error (sorted_desc (ss_periods st)) = Some last ->
        let a := local_avg_cycle (ss_periods st) (ss_avg_cycle st) in
        let dur := menses_average (ss_periods st) in
        19 <= start last <= today -> 0 < query ->
        today + a <= PyDate.MAXORDINAL -> today + dur <= PyDate.MAXORDINAL ->
        query + a <= PyDate.MAXORDINAL -> query + dur <= PyDate.MAXORDINAL ->
        exists tv qv nx h,
          run_page today query st
          = (Done (mkPageView (Some tv) (Some qv) (Some nx) (Some h)),
             snd (today_status today st))).
Proof.
  intros Hok. split.
  { intros Ep. unfold run_page, today_status, query_status. rewrite Ep. cbn.
    rewrite Ep. cbn. unfold history_section. now rewrite Ep. }
  intros last Hlast a dur Hls Hq Hta Htd Hqa Hqd.
  pose proof (session_avg_cycle_pos st Hok) as Hpos. fold a in Hpos.
  assert (Hne : ss_periods st <> []) by (intros E; rewrite E in Hlast; discriminate).
  assert (Hinv : start last <= end_ last).
  { destruct Hok as (_ & Hall & _). rewrite Forall_forall in Hall.
    apply Hall. now apply last_record_latest. }
  assert (Hdur : 1 <= dur).
  { destruct Hok as (_ & Hall & _). now apply menses_average_pos. }
  unfold PyDate.MAXORDINAL in *.
  destruct (calculate_predictions_returns (ss_periods st) (ss_avg_cycle st)
              today st last Hlast) as (r1 & st1 & Hc1);
    fold a dur; unfold PyDate.MAXORDINAL; try lia.
  destruct (calculate_predictions_returns (ss_periods st) (ss_avg_cycle st)
              query st last Hlast) as (r2 & st2 & Hc2);
    fold a dur; unfold PyDate.MAXORDINAL; try lia.
  unfold run_page.
  pose proof (query_after_today st today query) as Hqt.
  unfold today_status, query_status in *. rewrite Hc1 in *. cbn [snd] in *.
  rewrite Hqt, Hc2. cbn [fst].
  destruct (returned_frame _ _ _ _ _ _ _ Hlast Hc1) as (Hl1 & He1 & _).
  destruct (get_chinese_weekday_done today) as [w Hw].
  rewrite (today_section_by_stage today _ _ r1 w Hl1 He1 Hw).
  destruct (query_section_props _ _ _ _ _ _ _ Hlast Hinv Hpos Hc2)
    as (Hq1 & Hq2 & Hq3). cbv zeta in Hq1, Hq2, Hq3. fold a dur in Hq1, Hq2, Hq3.
  assert (Hqs : exists shown, query_section query r2 = Done shown).
  { destruct (Z_lt_le_dec query (start last)) as [Hlt|Hge].
    - apply Hq2. now left.
    - apply Hq3; unfold PyDate.MAXORDINAL; lia. }
  destruct Hqs as [shown Hshown]. destruct (Hq1 _ Hshown) as (qv & -> & _).
  rewrite Hshown.
  destruct (next_period_section_props _ _ _ _ _ _ _ Hlast Hinv Hpos Hc1)
    as [Hn1 Hn2]. cbv zeta in Hn1, Hn2. fold a in Hn1, Hn2.
  destruct Hn2 as [nx Hnx]; unfold PyDate.MAXORDINAL; try lia.
  assert (Hst1 : st1 = snd (calculate_predictions (ss_periods st)
                              (ss_avg_cycle st) today st)) by now rewrite Hc1.
  destruct (run_state st today query last Hlast) as (_ & Ha1 & _ & Hp1).
  cbv zeta in Ha1, Hp1. unfold today_status in Ha1, Hp1.
  rewrite <- Hst1 in Ha1, Hp1. fold a in Ha1. rewrite Ha1, Hnx.
  pose proof (Hn1 _ Hnx) as Hnext.
  destruct (returned_cases _ _ _ _ _ _ _ Hlast Hpos Hc1)
    as [(_ & _ & _ & Hn & _)|[(_ & _ & _ & Hn & _)|(_ & _ & _ & _ & Hn & _)]];
    cbv zeta in Hn; rewrite Hn in Hnext; subst nx;
    unfold history_section; rewrite Hp1;
    destruct (ss_periods st) as [|first rest] eqn:Ep; try congruence;
    do 4 eexists; reflexivity.
Qed.

Lemma X20_page_runs_witness :
  let st := mkSession history1 28 5 (PyDate.ymd2ord 2024 1 10) in
  exists tv qv nx h,
    run_page (PyDate.ymd2ord 2024 1 10) (PyDate.ymd2ord 2024 3 1) st
    = (Done (mkPageView (Some tv) (Some qv) (Some nx) (Some h)),
       snd (today_status (PyDate.ymd2ord 2024 1 10) st)).
Proof.
  intros st.
  refine (proj2 (X20_page_runs st (PyDate.ymd2ord 2024 1 10)
                   (PyDate.ymd2ord 2024 3 1) _)
            (mkPeriod (PyDate.ymd2ord 2024 1 1) (PyDate.ymd2ord 2024 1 5))
            _ _ _ _ _ _ _).
  - unfold session_ok. vm_compute.
    repeat split; try discriminate; repeat constructor; simpl; intuition discriminate.
  - reflexivity.
  - vm_compute. split; discriminate.
  - reflexivity.
  - vm_compute. discriminate.
  - vm_compute. discriminate.
  - vm_compute. discriminate.
  - vm_compute. discriminate.
Defined.

(** The sections of the page leave the session as the today call left it. *)
Lemma run_page_state (today query : Z) (st : session_state) :
  snd (run_page today query st) = snd (today_status today st).
Proof.
  unfold run_page.
  pose proof (query_after_today st today query) as Hq.
  destruct (today_status today st) as [[r1|e1] st1]; cbn [snd] in *;
    [|reflexivity].
  destruct (today_section today r1); [|reflexivity].
  rewrite Hq.
  destruct (fst (query_status query st)); [|reflexivity].
  destruct (query_section query _); [|reflexivity].
  destruct (next_period_section today r1 _); reflexivity.
Qed.

(** What a page run stores. *)
Lemma status_state (today : Z) (st : session_state) :
  snd (today_status today st)
  = match ss_periods st with
    | [] => st
    | _ :: _ =>
      mkSession (ss_periods st)
        (if (1 <? List.length (ss_periods st))%nat
         then local_avg_cycle (ss_periods st) (ss_avg_cycle st)
         else ss_avg_cycle st)
        (menses_average (ss_periods st)) (ss_query_date st)
    end.
Proof.
  unfold today_status.
  destruct (ss_periods st) as [|first rest] eqn:Ep; [reflexivity|].
  rewrite <- Ep.
  assert (Hne : ss_periods st <> []) by (rewrite Ep; discriminate).
  destruct (sorted_desc_nonempty _ Hne) as [last Hlast].
  now rewrite (calculate_predictions_explicit _ _ _ _ _ Hlast).
Qed.

Lemma status_frame (today : Z) (st : session_state) :
  ss_periods (snd (today_status today st)) = ss_periods st
  /\ ss_query_date (snd (today_status today st)) = ss_query_date st.
Proof.
  rewrite status_state. destruct (ss_periods st) eqn:Ep; [|split; reflexivity].
  now rewrite Ep.
Qed.

(** With two records or more the average cycle is computed, whatever
    average is passed. *)
Lemma local_avg_cycle_indep (periods : list period) (a a' : Z) :
  (2 <= List.length periods)%nat ->
  local_avg_cycle periods a = local_avg_cycle periods a'.
Proof.
  intros Hlen. unfold local_avg_cycle. rewrite length_map, sorted_desc_length.
  now assert ((1 <? List.length periods)%nat = true) as ->
    by (apply Nat.ltb_lt; lia).
Qed.

(** X11.  Saving a period and deleting it again, each followed by the page
    run it triggers.  If no stored record starts on [s], then after a save
    for start [s] (accepted or refused), its run, a delete of [s] and its run,
    the stored history and the stored query date are the ones from before.
    The stored averages are those of a plain run of the page on the session
    from before when it held two records or more; with fewer records they are
    not reset to what they were.  After a delete and its run no record starts
    on the deleted date. *)
Theorem X11_delete_undoes_save (s e t1 q1 t2 q2 : Z) (st : session_state) :
  ~ In s (map start (ss_periods st)) ->
  let st' := click_delete t2 q2 s (submit_save t1 q1 s e st) in
  ss_periods st' = ss_periods st
  /\ ss_query_date st' = ss_query_date st
  /\ ((2 <= List.length (ss_periods st))%nat -> st' = snd (run_page t2 q2 st))
  /\ forall d t q st0, ~ In d (map start (ss_periods (click_delete t q d st0))).
Proof.
  intros Hfresh st'. subst st'. unfold click_delete, submit_save.
  rewrite !run_page_state.
  set (sa := save_period s e st).
  set (sb := snd (today_status t1 sa)).
  assert (Hpa : ss_periods (delete_period s sa) = ss_periods st).
  { subst sa. unfold save_period.
    rewrite (proj2 (existsb_start_false s (ss_periods st)) Hfresh).
    destruct (s <=? e); cbn.
    - rewrite filter_app, filter_start_absent by assumption.
      cbn. rewrite Z.eqb_refl. cbn. apply app_nil_r.
    - now apply filter_start_absent. }
  assert (Hqa : ss_query_date sa = ss_query_date st).
  { subst sa. unfold save_period.
    destruct (s <=? e); [|reflexivity].
    now destruct (existsb _ _). }
  destruct (status_frame t1 sa) as [Hpb Hqb]. fold sb in Hpb, Hqb.
  assert (Hpc : ss_periods (delete_period s sb) = ss_periods st).
  { unfold delete_period. cbn. rewrite Hpb. exact Hpa. }
  assert (Hqc : ss_query_date (delete_period s sb) = ss_query_date st).
  { unfold delete_period. cbn. now rewrite Hqb. }
  destruct (status_frame t2 (delete_period s sb)) as [Hpd Hqd].
  split; [now rewrite Hpd|]. split; [now rewrite Hqd|]. split.
  - intros Hlen. rewrite !status_state. rewrite Hpc, Hqc.
    destruct (ss_periods st) as [|first rest] eqn:Ep; [simpl in Hlen; lia|].
    rewrite <- Ep in *.
    assert ((1 <? List.length (ss_periods st))%nat = true) as ->
      by (apply Nat.ltb_lt; lia).
    f_equal. now apply local_avg_cycle_indep.
  - intros d t q st0. rewrite run_page_state.
    rewrite (proj1 (status_frame t (delete_period d st0))).
    unfold delete_period. cbn. apply filter_start_gone.
Qed.

Lemma X11_delete_undoes_save_witness :
  let st := mkSession history2 28 5 0 in
  ss_periods (click_delete 738950 738950 738960
                (submit_save 738950 738950 738960 738963 st))
  = ss_periods st.
Proof.
  intros st.
  apply (proj1 (X11_delete_undoes_save 738960 738963 738950 738950 738950 738950
                  st ltac:(vm_compute; intuition discriminate))).
Defined.

End UIFacts.

(** ** When a call returns, when it overflows, and what the averages are *)

(** X21.  A call on a history with a record returns a dictionary, without
    any exception, when both averages in force are at least one day, the
    latest record starts on 0001-01-19 or later, the latest start plus the
    average cycle is still a date, and, for a target after the latest end, the
    target plus either average is not past 9999-12-31. *)
Theorem X21_call_returns (periods : list period) (avg_cycle0 target : Z)
    (st : session_state) (last : period) :
  hd_error (sorted_desc periods) = Some last ->
  let a := local_avg_cycle periods avg_cycle0 in
  let dur := menses_average periods in
  1 <= a -> 1 <= dur ->
  19 <= start last -> start last + a <= PyDate.MAXORDINAL ->
  (end_ last < target ->
   target + a <= PyDate.MAXORDINAL /\ target + dur <= PyDate.MAXORDINAL) ->
  exists r st',
    calculate_predictions periods avg_cycle0 target st = (Ok r, st').
Proof. exact (UIFacts.calculate_predictions_returns periods avg_cycle0 target st last). Qed.

Lemma X21_call_returns_witness :
  exists r st',
    calculate_predictions history3 28 (PyDate.ymd2ord 2024 3 20)
      (initial_session 0) = (Ok r, st').
Proof.
  refine (X21_call_returns history3 28 (PyDate.ymd2ord 2024 3 20)
            (initial_session 0)
            (mkPeriod (PyDate.ymd2ord 2024 2 27) (PyDate.ymd2ord 2024 3 3))
            _ _ _ _ _ _).
  - reflexivity.
  - vm_compute. discriminate.
  - vm_compute. discriminate.
  - vm_compute. discriminate.
  - vm_compute. discriminate.
  - intros _. vm_compute. split; discriminate.
Defined.

(** X22.  At the end of the calendar the projection overflows: for a
    target after the latest recorded end, with an average cycle of at least
    one day, the call raises [OverflowError] when the next projected start,
    the target's projected cycle start plus the average cycle, would be past
    9999-12-31.  The averages have been stored by then. *)
Theorem X22_projection_overflows (periods : list period) (avg_cycle0 target : Z)
    (st : session_state) (last : period) :
  hd_error (sorted_desc periods) = Some last ->
  let a := local_avg_cycle periods avg_cycle0 in
  1 <= a ->
  0 < start last <= end_ last -> end_ last < target <= PyDate.MAXORDINAL ->
  PyDate.MAXORDINAL < target - (target - start last) mod a + a ->
  fst (calculate_predictions periods avg_cycle0 target st) = Raise OverflowError
  /\ ss_avg_period_length (snd (calculate_predictions periods avg_cycle0 target st))
     = menses_average periods.
Proof.
  intros Hlast a Ha Hrec Ht Hover.
  rewrite (calculate_predictions_explicit _ _ _ _ _ Hlast). cbn [fst snd].
  split; [|reflexivity]. fold a.
  unfold classify, PyDate.days_between.
  assert ((target <? start last) = false) as -> by (apply Z.ltb_ge; lia).
  assert ((target <=? end_ last) = false) as -> by (apply Z.leb_gt; lia).
  unfold classify_projected, py_mod, py_floordiv.
  assert ((a =? 0) = false) as -> by (apply Z.eqb_neq; lia). cbn [bind].
  replace (target - start last + 1 - 1) with (target - start last) by lia.
  destruct (projected_window (start last) a target ltac:(lia)) as [Hw Hm].
  cbv zeta in Hw, Hm.
  assert (Hq : 0 <= (target - start last) / a * a)
    by (apply Z.mul_nonneg_nonneg; [apply Z.div_pos|]; lia).
  unfold PyDate.MAXORDINAL in *.
  rewrite timedelta_returns by (unfold PyDate.MAX_DELTA_DAYS; lia). cbn [bind].
  rewrite date_add_returns by (unfold PyDate.MAXORDINAL; lia). cbn [bind].
  unfold PyDate.timedelta. destruct (Z.abs a <=? PyDate.MAX_DELTA_DAYS);
    cbn [bind]; [|reflexivity].
  unfold PyDate.date_add.
  assert ((start last + (target - start last) / a * a + a <=? PyDate.MAXORDINAL)
          = false) as ->
    by (apply Z.leb_gt; unfold PyDate.MAXORDINAL; lia).
  now rewrite andb_false_r.
Qed.

Lemma X22_projection_overflows_witness :
  fst (calculate_predictions
         [mkPeriod (PyDate.ymd2ord 9999 12 10) (PyDate.ymd2ord 9999 12 14)]
         28 (PyDate.ymd2ord 9999 12 20) (initial_session 0))
  = Raise OverflowError.
Proof.
  refine (proj1 (X22_projection_overflows
    [mkPeriod (PyDate.ymd2ord 9999 12 10) (PyDate.ymd2ord 9999 12 14)]
    28 (PyDate.ymd2ord 9999 12 20) (initial_session 0)
    (mkPeriod (PyDate.ymd2ord 9999 12 10) (PyDate.ymd2ord 9999 12 14))
    _ _ _ _ _)).
  - reflexivity.
  - vm_compute. discriminate.
  - vm_compute. split; [reflexivity | discriminate].
  - vm_compute. split; [reflexivity | discriminate].
  - vm_compute. reflexivity.
Defined.

(** A rounded mean lies between the smallest and the largest of the values. *)
Lemma py_round_div_between (p q lo hi : Z) :
  0 < q -> q * lo <= p <= q * hi -> lo <= py_round_div p q <= hi.
Proof.
  intros Hq [Hlo Hhi].
  pose proof (Z.div_mod p q ltac:(lia)) as Hdm.
  pose proof (Z.mod_pos_bound p q Hq) as Hb.
  assert (lo <= p / q) by (apply Z.div_le_lower_bound; lia).
  assert (p / q <= hi) by (apply Z.div_le_upper_bound; lia).
  unfold py_round_div.
  destruct (2 * (p mod q) <? q) eqn:E1; bool_to_prop; [lia|].
  assert (p / q < hi) by nia.
  destruct (q <? 2 * (p mod q)); [lia|].
  destruct (Z.even (p / q)); lia.
Qed.

Lemma py_sum_between (l : list Z) (lo hi : Z) :
  Forall (fun x => lo <= x <= hi) l ->
  Z.of_nat (length l) * lo <= py_sum l <= Z.of_nat (length l) * hi.
Proof.
  induction 1 as [|x l Hx _ IH]; [simpl; lia|].
  cbn [length py_sum fold_right]. fold (py_sum l). lia.
Qed.

(** X23.  The averages stay within the data: for a history with a record,
    if every recorded period lasts between [lo] and [hi] days, so does the
    average period length a returned dictionary carries; and with two records
    or more, if every gap between consecutive starts is between [glo] and
    [ghi] days, so is its average cycle. *)
Theorem X23_averages_within_data (periods : list period)
    (avg_cycle0 target lo hi glo ghi : Z)
    (st st' : session_state) (r : Result) :
  periods <> [] ->
  calculate_predictions periods avg_cycle0 target st = (Ok r, st') ->
  (Forall (fun p => lo <= (end_ p - start p) + 1 <= hi) periods ->
   lo <= avg_period_length r <= hi)
  /\ ((2 <= length periods)%nat ->
      Forall (fun g => glo <= g <= ghi)
             (spec_consecutive_gaps (map start (sorted_desc periods))) ->
      glo <= avg_cycle r <= ghi).
Proof.
  intros Hne Hcall.
  destruct (returned_averages _ _ _ _ _ _ Hne Hcall) as [Ha Hm].
  rewrite Ha, Hm. split.
  - intros Hall. rewrite menses_average_mean. unfold py_rounded_mean.
    apply py_round_div_between.
    + rewrite length_map. destruct periods; [congruence | simpl length; lia].
    + apply py_sum_between. rewrite Forall_map. exact Hall.
  - intros Hlen Hall.
    rewrite (local_avg_cycle_gaps periods (sorted_desc periods) avg_cycle0 Hlen
               (sorted_desc_perm periods) (sorted_desc_sorted periods)).
    unfold py_rounded_mean. apply py_round_div_between.
    + rewrite spec_consecutive_gaps_length, length_map, sorted_desc_length. lia.
    + now apply py_sum_between.
Qed.

Lemma X23_averages_within_data_witness :
  4 <= 5 <= 6.
Proof.
  refine (proj1 (X23_averages_within_data history3 28 (PyDate.ymd2ord 2024 3 1)
    4 6 28 29 (initial_session 0) (set_ss_avg_period_length (initial_session 0) 5)
    (mkResult (Some 738943) (Some 738971) 28 5 (StageMensesRecorded 4)
       (DetailRecorded 738943 738948) 4 (Some 738948) 738946 (Some 25))
    _ _) _).
  - discriminate.
  - vm_compute. reflexivity.
  - vm_compute. repeat constructor; discriminate.
Defined.

(** The last entry of a descending list is its smallest. *)
Lemma desc_sorted_last (a d : Z) (l : list Z) :
  StronglySorted Z.ge (a :: l) -> forall x, In x (a :: l) -> last (a :: l) d <= x.
Proof.
  revert a. induction l as [|b l IH]; intros a Hs x Hin.
  - destruct Hin as [->|[]]. simpl. lia.
  - inversion Hs as [|? ? Hs' Ha]; subst.
    change (last (a :: b :: l) d) with (last (b :: l) d).
    destruct Hin as [->|Hin]; [|now apply IH].
    inversion Ha as [|? ? Hab _]; subst.
    specialize (IH b Hs' b (or_introl eq_refl)). lia.
Qed.

(** X24.  The gaps telescope: with two records or more, the average cycle
    is the number of days from the earliest recorded start to the latest,
    divided by the number of records less one and rounded; the starts in
    between do not matter. *)
Theorem X24_average_cycle_telescopes (periods : list period) (avg_cycle0 : Z)
    (earliest latest : period) :
  (2 <= length periods)%nat ->
  In earliest periods -> In latest periods ->
  (forall p, In p periods -> start earliest <= start p <= start latest) ->
  local_avg_cycle periods avg_cycle0
  = py_round_div (start latest - start earliest)
                 (Z.of_nat (length periods) - 1).
Proof.
  intros Hlen Hie Hil Hall. unfold local_avg_cycle.
  rewrite length_map, sorted_desc_length.
  assert ((1 <? length periods)%nat = true) as -> by (apply Nat.ltb_lt; lia).
  replace (Z.of_nat (length periods - 1)) with (Z.of_nat (length periods) - 1)
    by lia.
  f_equal.
  pose proof (spec_sorted_starts _ (sorted_desc_sorted periods)) as Hs.
  assert (HP : Permutation (map start (sorted_desc periods)) (map start periods))
    by (apply Permutation_map, sorted_desc_perm).
  destruct (map start (sorted_desc periods)) as [|a l] eqn:Esd.
  { apply Permutation_length in HP. rewrite length_map in HP.
    simpl in HP. lia. }
  rewrite (total_cycle_length_telescope a 0 l).
  assert (Hin : forall x, In x (a :: l) <-> exists p, In p periods /\ start p = x).
  { intros x. split.
    - intros Hx. eapply Permutation_in in Hx; [|exact HP].
      apply in_map_iff in Hx as (p & Hp & Hin). now exists p.
    - intros (p & Hp & <-). eapply Permutation_in; [symmetry; exact HP|].
      now apply in_map. }
  assert (Ha : a = start latest).
  { assert (In (start latest) (a :: l)) as Hl by (apply Hin; now exists latest).
    assert (In a (a :: l)) as Haa by now left.
    apply Hin in Haa as (p & Hp & Hpa). specialize (Hall p Hp).
    inversion Hs as [|? ? _ Hge]; subst. rewrite Forall_forall in Hge.
    destruct Hl as [Hl|Hl]; [now symmetry|]. specialize (Hge _ Hl). lia. }
  assert (Hlast : last (a :: l) 0 = start earliest).
  { pose proof (desc_sorted_last a 0 l Hs) as Hmin.
    assert (In (start earliest) (a :: l)) as He by (apply Hin; now exists earliest).
    specialize (Hmin _ He).
    assert (In (last (a :: l) 0) (a :: l)) as Hlin.
    { destruct (exists_last (l := a :: l) ltac:(discriminate)) as (l' & z & E).
      rewrite E, last_last. apply in_or_app. right. now left. }
    apply Hin in Hlin as (p & Hp & Hpl). specialize (Hall p Hp). lia. }
  rewrite Hlast, Ha. reflexivity.
Qed.

Lemma X24_average_cycle_telescopes_witness :
  local_avg_cycle history3 0
  = py_round_div (PyDate.ymd2ord 2024 2 27 - PyDate.ymd2ord 2024 1 1) (3 - 1).
Proof.
  refine (X24_average_cycle_telescopes history3 0
    (mkPeriod (PyDate.ymd2ord 2024 1 1) (PyDate.ymd2ord 2024 1 4))
    (mkPeriod (PyDate.ymd2ord 2024 2 27) (PyDate.ymd2ord 2024 3 3)) _ _ _ _).
  - simpl. lia.
  - simpl. tauto.
  - simpl. tauto.
  - intros p [<-|[<-|[<-|[]]]]; vm_compute; split; discriminate.
Defined.
